(** * Response selector: a shallow embedding of
      [rasa/nlu/selectors/response_selector.py]

    The file follows the Python module top to bottom: first the Python
    runtime notions the module relies on (exceptions, truthiness,
    dictionaries), then the [ResponseSelector] component, then the
    [DIET2DIET] model, and finally the properties of both.

    Code that the module inherits or imports from other modules (the
    [DIETClassifier] and [DIET] parent classes, [TrainingData], [io_utils],
    the tensor operations) enters as the operations of an interface: every
    theorem of the two property sections holds for all implementations of
    it. *)

From Stdlib Require Import ZArith Ascii String Floats.PrimFloat.
From stdpp Require Import base option gmap strings list fin_maps.

Set Warnings "-register-all".
Local Open Scope Z_scope.

(** ** Python runtime *)

(** The exceptions the module can raise, by class. [IOError] stands for a
    side file that cannot be read back. *)
Inductive exn :=
| TypeError | IndexError | KeyError | ValueError | InvalidConfigError | IOError.

(** A call either returns a value or raises. *)
Inductive result (A : Type) :=
| Return (a : A)
| Raise (e : exn).
Arguments Return {A} a.
Arguments Raise {A} e.

#[global] Instance result_ret : MRet result := @Return.
#[global] Instance result_bind : MBind result := fun A B f r =>
  match r with
  | Return a => f a
  | Raise e => Raise e
  end.

(** A method that mutates [self]: it runs from a state and leaves a state,
    also when it raises (Python does not roll assignments back). *)
Definition St (S A : Type) : Type := S -> result A * S.

Definition st_ret {S A} (a : A) : St S A := fun s => (Return a, s).
Definition st_bind {S A B} (m : St S A) (f : A -> St S B) : St S B := fun s =>
  match m s with
  | (Return a, s') => f a s'
  | (Raise e, s') => (Raise e, s')
  end.
Definition st_get {S} : St S S := fun s => (Return s, s).
Definition st_modify {S} (f : S -> S) : St S unit := fun s => (Return tt, f s).
Definition st_lift {S A} (r : result A) : St S A := fun s => (r, s).

Declare Scope st_scope.
Delimit Scope st_scope with st.
Notation "x <~ m ;; k" := (st_bind m (fun x => k))
  (at level 100, m at next level, right associativity) : st_scope.
Notation "m ;;; k" := (st_bind m (fun _ => k))
  (at level 100, right associativity) : st_scope.

(** Values of type [Any]: what a configuration entry or a response payload
    field can hold. Dictionaries keep their insertion order. *)
Inductive Any :=
| PNone
| PBool (b : bool)
| PInt (z : Z)
| PFloat (f : float)
| PStr (s : string)
| PList (l : list Any)
| PDict (d : list (string * Any)).

(** [bool(v)]: the truth value Python gives [v] in an [if]. *)
Definition truthy (v : Any) : bool :=
  match v with
  | PNone => false
  | PBool b => b
  | PInt z => negb (z =? 0)
  | PFloat f => negb (PrimFloat.eqb f PrimFloat.zero)
  | PStr s => negb (String.eqb s "")
  | PList l => match l with [] => false | _ => true end
  | PDict d => match d with [] => false | _ => true end
  end.

(** Truth value of an [Optional[Text]]: [None] and [""] are false. *)
Definition truthy_text (v : option string) : bool :=
  match v with
  | None => false
  | Some s => negb (String.eqb s "")
  end.

(** [d[k]]: subscripting a dictionary raises [KeyError] on a missing key. *)
Definition getitem {V} (d : gmap string V) (k : string) : result V :=
  match d !! k with
  | Some v => Return v
  | None => Raise KeyError
  end.

(** [l[0]] on a list. *)
Definition first_item {A} (l : list A) : result A :=
  match l with
  | x :: _ => Return x
  | [] => Raise IndexError
  end.

(** [a, b = v]: unpacking [None] raises [TypeError]. *)
Definition unpack_pair {A B} (v : option (A * B)) : result (A * B) :=
  match v with
  | Some p => Return p
  | None => Raise TypeError
  end.

(** A [for] loop whose body can raise, collecting what the body produces. *)
Fixpoint for_each {A B} (body : A -> result B) (l : list A) : result (list B) :=
  match l with
  | [] => Return []
  | x :: rest =>
      y ← body x;
      ys ← for_each body rest;
      Return (y :: ys)
  end.

(** ** Constants

    The keys below are imported from [rasa.nlu.constants],
    [rasa.utils.tensorflow.constants] and [diet_classifier]; the module only
    needs them to be distinct strings. *)
Definition TEXT : string := "text".
Definition LABEL : string := "label".
Definition INTENT : string := "intent".
Definition RESPONSE : string := "response".
Definition INTENT_RESPONSE_KEY : string := "intent_response_key".
Definition RESPONSE_SELECTOR_PROPERTY_NAME : string := "response_selector".
Definition DEFAULT_OPEN_UTTERANCE_TYPE : string := "default".
Definition TRAIN_ON_TEXT : string := "train_on_text".
Definition INTENT_CLASSIFICATION : string := "intent_classification".
Definition ENTITY_RECOGNITION : string := "entity_recognition".
Definition BILOU_FLAG : string := "BILOU_flag".
Definition MASKED_LM : string := "use_masked_language_model".
Definition SHARE_HIDDEN_LAYERS : string := "share_hidden_layers".
Definition SIMILARITY_TYPE : string := "similarity_type".
Definition LABEL_IDS : string := "label_ids".
Definition TEXT_SEQUENCE_LENGTH : string := "text_sequence_lengths".
Definition LABEL_SEQUENCE_LENGTH : string := "label_sequence_lengths".
Definition TEXT_SEQUENCE_FEATURES : string := "text_sequence_features".
Definition LABEL_SEQUENCE_FEATURES : string := "label_sequence_features".
Definition TEXT_SENTENCE_FEATURES : string := "text_sentence_features".
Definition LABEL_SENTENCE_FEATURES : string := "label_sentence_features".

(** ** Data model *)

(** A component configuration: [Dict[Text, Any]]. *)
Abbreviation Config := (gmap string Any).

(** A full response payload: text plus buttons, images, ... *)
Abbreviation Response := (gmap string Any).

(** The response registry [Dict[Text, List[Dict[Text, Any]]]]. [items()]
    walks it in insertion order, so it is kept as an ordered list. *)
Abbreviation Registry := (list (string * list (gmap string Any))).

(** The retrieval-intent mapping. A key is [example.get(RESPONSE)] and a
    value [example.get(INTENT_RESPONSE_KEY)]; both can be [None]. *)
Abbreviation Mapping := (gmap (option string) (option string)).

(** A predicted label, as the classifier hands it over:
    [{"id": ..., "name": ..., "confidence": ...}]. *)
Record Label := {
  id : option Z;
  name : option string;
  confidence : float;
}.

(** A ranking entry once [process] has added the key
    ["full_retrieval_intent"] to the label's dictionary. *)
Record Ranking := {
  ranking_label : Label;
  full_retrieval_intent : option string;
}.

(** [prediction_dict] of [process]. *)
Record Prediction := {
  prediction_response : gmap string Any;
  prediction_ranking : list Ranking;
  prediction_full_retrieval_intent : string;
}.

(** A message: its text, its textual attributes (intent, response, ...),
    the response-selector property [data["response_selector"]] (absent until
    a selector sets it) and the names of the properties to output. *)
Record Message := {
  text : string;
  data : gmap string string;
  response_selector : option (gmap string Prediction);
  output_properties : gset string;
}.

(** [message.get(prop)] for a textual attribute. *)
Definition message_get (message : Message) (prop : string) : option string :=
  if String.eqb prop TEXT then Some (text message) else data message !! prop.

(** [message.set("response_selector", info, add_to_output=True)]. *)
Definition message_set_selector (message : Message) (info : gmap string Prediction) : Message :=
  {| text := text message;
     data := data message;
     response_selector := Some info;
     output_properties := {[RESPONSE_SELECTOR_PROPERTY_NAME]} ∪ output_properties message |}.

(** ** The [ResponseSelector] component *)

(** The component's fields. The trained model ([RasaModel]) and the
    prepared label data ([RasaModelData]) are opaque to this module.
    [retrieval_intent] is read from the configuration by
    [_load_selector_params]. *)
Record ResponseSelector {RasaModel RasaModelData : Type} := {
  component_config : Config;
  index_label_id_mapping : gmap Z string;
  _label_data : option RasaModelData;
  model : option RasaModel;
  retrieval_intent : option string;
  retrieval_intent_mapping : Mapping;
  responses : Registry;
}.
Arguments ResponseSelector : clear implicits.

(** What the component uses without defining it: Python's built-in [hash]
    (salted per interpreter for strings, so nothing is known about it beyond
    being a function), the methods inherited from [DIETClassifier], and the
    accessors of [TrainingData]. *)
Class DIETClassifier (RasaModel RasaModelData PredictOut TrainingData : Type) := {
  hash : Any -> Z;
  _predict : ResponseSelector RasaModel RasaModelData -> Message -> option PredictOut;
  _predict_label :
    ResponseSelector RasaModel RasaModelData -> option PredictOut -> Label * list Label;
  intent_examples : TrainingData -> list Message;
  training_data_responses : TrainingData -> Registry;
  filter_training_examples : (Message -> bool) -> TrainingData -> TrainingData;
  _label_id_index_mapping : TrainingData -> string -> gmap string Z;
  _invert_mapping : gmap string Z -> gmap Z string;
  _create_label_data :
    ResponseSelector RasaModel RasaModelData -> TrainingData -> gmap string Z -> string ->
    result RasaModelData;
  _create_model_data :
    ResponseSelector RasaModel RasaModelData -> list Message -> gmap string Z -> string ->
    result RasaModelData;
  _check_input_dimension_consistency :
    ResponseSelector RasaModel RasaModelData -> RasaModelData -> result unit;
  empty_RasaModelData : RasaModelData;
}.

(** The metadata a component hands to the pipeline when persisted:
    [{"file": ..., "responses": ...}]; [None] is a key that is absent or
    holds [None]. *)
Record Meta := {
  meta_file : option string;
  meta_responses : option Registry;
}.

(** Persistence the component relies on: the parent's [persist] and [load]
    and [io_utils]' pickling, over some file system [FS]. *)
Class Persistence (RasaModel RasaModelData FS : Type) := {
  super_persist :
    ResponseSelector RasaModel RasaModelData -> string -> string -> FS -> FS;
  super_load :
    Meta -> string -> option (ResponseSelector RasaModel RasaModelData) -> FS ->
    result (ResponseSelector RasaModel RasaModelData);
  json_pickle : string -> Mapping -> FS -> FS;
  json_unpickle : string -> FS -> result Mapping;
}.

(** [Path(model_dir) / name]. *)
Definition path_join (model_dir name : string) : string :=
  (model_dir ++ "/" ++ name)%string.

Section ResponseSelector.

Context {RasaModel RasaModelData PredictOut TrainingData FS : Type}.
Context `{!DIETClassifier RasaModel RasaModelData PredictOut TrainingData}.
Context `{!Persistence RasaModel RasaModelData FS}.

Local Abbreviation Selector := (ResponseSelector RasaModel RasaModelData).

(** [hash(v)]: lists and dictionaries are unhashable. *)
Definition py_hash (v : Any) : result Z :=
  match v with
  | PList _ | PDict _ => Raise TypeError
  | _ => Return (hash v)
  end.

(** [ResponseSelector.__init__], up to the call of the parent constructor:
    the three reserved options are written over whatever the caller gave,
    and this dictionary is what the parent receives. *)
Definition __init__
    (component_config : option Config)
    (index_label_id_mapping : option (gmap Z string))
    (model : option RasaModel)
    (retrieval_intent_mapping : option Mapping)
    (responses : option Registry) : Selector :=
  let component_config :=
    match component_config with
    | Some c => if decide (c = ∅) then ∅ else c
    | None => ∅
    end in
  let component_config := <[INTENT_CLASSIFICATION := PBool true]> component_config in
  let component_config := <[ENTITY_RECOGNITION := PBool false]> component_config in
  let component_config := <[BILOU_FLAG := PNone]> component_config in
  {| component_config := component_config;
     index_label_id_mapping := default ∅ index_label_id_mapping;
     _label_data := None;
     model := model;
     retrieval_intent := None;
     retrieval_intent_mapping :=
       match retrieval_intent_mapping with
       | Some m => if decide (m = ∅) then ∅ else m
       | None => ∅
       end;
     responses :=
       match responses with
       | Some (_ :: _ as r) => r
       | _ => []
       end |}.

(** [_create_retrieval_intent_mapping]: one assignment per intent example,
    in order, so a later example overwrites an earlier one with the same
    response. *)
Definition _create_retrieval_intent_mapping (training_data : TrainingData) : Mapping :=
  fold_left
    (fun retrieval_intent_mapping example =>
       <[message_get example RESPONSE := message_get example INTENT_RESPONSE_KEY]>
         retrieval_intent_mapping)
    (intent_examples training_data) ∅.

(** [_set_message_property]. *)
Definition _set_message_property
    (message : Message) (prediction_dict : Prediction) (selector_key : string) : Message :=
  let message_selector_properties := default ∅ (response_selector message) in
  let message_selector_properties :=
    <[selector_key := prediction_dict]> message_selector_properties in
  message_set_selector message message_selector_properties.

(** Field assignments on [self]. *)
Definition set_retrieval_intent_mapping (m : Mapping) (self : Selector) : Selector :=
  {| component_config := component_config self;
     index_label_id_mapping := index_label_id_mapping self;
     _label_data := _label_data self;
     model := model self;
     retrieval_intent := retrieval_intent self;
     retrieval_intent_mapping := m;
     responses := responses self |}.

Definition set_responses (r : Registry) (self : Selector) : Selector :=
  {| component_config := component_config self;
     index_label_id_mapping := index_label_id_mapping self;
     _label_data := _label_data self;
     model := model self;
     retrieval_intent := retrieval_intent self;
     retrieval_intent_mapping := retrieval_intent_mapping self;
     responses := r |}.

Definition set_index_label_id_mapping (i : gmap Z string) (self : Selector) : Selector :=
  {| component_config := component_config self;
     index_label_id_mapping := i;
     _label_data := _label_data self;
     model := model self;
     retrieval_intent := retrieval_intent self;
     retrieval_intent_mapping := retrieval_intent_mapping self;
     responses := responses self |}.

Definition set_label_data (d : RasaModelData) (self : Selector) : Selector :=
  {| component_config := component_config self;
     index_label_id_mapping := index_label_id_mapping self;
     _label_data := Some d;
     model := model self;
     retrieval_intent := retrieval_intent self;
     retrieval_intent_mapping := retrieval_intent_mapping self;
     responses := responses self |}.

(** The first statement of [preprocess_train_data]: with a retrieval intent
    configured, only its examples are kept. *)
Definition filter_by_retrieval_intent (self : Selector) (training_data : TrainingData)
  : TrainingData :=
  if truthy_text (retrieval_intent self)
  then filter_training_examples
         (fun ex => bool_decide (retrieval_intent self = message_get ex INTENT))
         training_data
  else training_data.

(** [preprocess_train_data]. The method assigns to [self] as it goes, so it
    is a computation over the component's state. *)
Definition preprocess_train_data (training_data : TrainingData)
  : St Selector RasaModelData :=
  (self <~ st_get ;;
   let training_data := filter_by_retrieval_intent self training_data in
   train_on_text <~ st_lift (getitem (component_config self) TRAIN_ON_TEXT) ;;
   let label_attribute :=
     if truthy train_on_text then RESPONSE else INTENT_RESPONSE_KEY in
   let label_id_index_mapping :=
     _label_id_index_mapping training_data label_attribute in
   st_modify (set_retrieval_intent_mapping
                (_create_retrieval_intent_mapping training_data)) ;;;
   st_modify (set_responses (training_data_responses training_data)) ;;;
   if decide (label_id_index_mapping = ∅)
   then st_ret empty_RasaModelData
   else
     st_modify (set_index_label_id_mapping
                  (_invert_mapping label_id_index_mapping)) ;;;
     self <~ st_get ;;
     label_data <~ st_lift (_create_label_data self training_data
                              label_id_index_mapping label_attribute) ;;
     st_modify (set_label_data label_data) ;;;
     self <~ st_get ;;
     model_data <~ st_lift (_create_model_data self (intent_examples training_data)
                              label_id_index_mapping label_attribute) ;;
     st_lift (_check_input_dimension_consistency self model_data) ;;;
     st_ret model_data)%st.

(** The inner loop of [_full_response] when training on text: the first
    response of the list whose text hashes to the label's id. *)
Fixpoint first_response_with_id (responses : list Response) (label : Label)
  : result (option Response) :=
  match responses with
  | [] => Return None
  | response :: rest =>
      h ← py_hash (default (PStr "") (response !! TEXT));
      if bool_decide (Some h = id label)
      then Return (Some response)
      else first_response_with_id rest label
  end.

(** The outer loop of [_full_response], over [self.responses.items()]. *)
Fixpoint full_response_items (config : Config) (items : Registry) (label : Label)
  : result (option (string * Response)) :=
  match items with
  | [] => Return None
  | (key, responses) :: rest =>
      train_on_text ← getitem config TRAIN_ON_TEXT;
      if truthy train_on_text
      then
        found ← first_response_with_id responses label;
        match found with
        | Some response => Return (Some (key, response))
        | None => full_response_items config rest label
        end
      else
        h ← py_hash (PStr key);
        if bool_decide (Some h = id label)
        then
          response ← first_item responses;
          Return (Some (key, response))
        else full_response_items config rest label
  end.

(** [_full_response]. *)
Definition _full_response (self : Selector) (label : Label)
  : result (option (string * Response)) :=
  full_response_items (component_config self) (responses self) label.

(** The body of the loop over [label_ranking] in [process]. *)
Definition annotate_ranking (self : Selector) (ranking : Label) : result Ranking :=
  train_on_text ← getitem (component_config self) TRAIN_ON_TEXT;
  Return {| ranking_label := ranking;
            full_retrieval_intent :=
              if truthy train_on_text
              then mjoin (retrieval_intent_mapping self !! name ranking)
              else name ranking |}.

(** The key under which [process] files its prediction. *)
Definition selector_key (self : Selector) : string :=
  if truthy_text (retrieval_intent self)
  then default DEFAULT_OPEN_UTTERANCE_TYPE (retrieval_intent self)
  else DEFAULT_OPEN_UTTERANCE_TYPE.

(** [process]. The message is only written by the last statement, so a call
    that raises leaves it as it was. *)
Definition process (self : Selector) (message : Message) : result Message :=
  let out := _predict self message in
  let '(label, label_ranking) := _predict_label self out in
  full ← _full_response self label;
  '(label_retrieval_intent, label_responses) ← unpack_pair full;
  label_ranking ← for_each (annotate_ranking self) label_ranking;
  let prediction_dict :=
    {| prediction_response := label_responses;
       prediction_ranking := label_ranking;
       prediction_full_retrieval_intent := label_retrieval_intent |} in
  Return (_set_message_property message prediction_dict (selector_key self)).

(** [persist]: writes through the file system and returns the metadata. *)
Definition persist (self : Selector) (file_name model_dir : string) (fs : FS) : Meta * FS :=
  match model self with
  | None => ({| meta_file := None; meta_responses := None |}, fs)
  | Some _ =>
      let fs := super_persist self file_name model_dir fs in
      let fs :=
        json_pickle
          (path_join model_dir (file_name ++ ".retrieval_intent_mapping.pkl"))
          (retrieval_intent_mapping self) fs in
      ({| meta_file := Some file_name; meta_responses := Some (responses self) |}, fs)
  end.

(** [load]. *)
Definition load (meta : Meta) (model_dir : string)
    (cached_component : option Selector) (fs : FS) : result Selector :=
  model ← super_load meta model_dir cached_component fs;
  if negb (truthy_text (meta_file meta))
  then Return model
  else
    let file_name := default "" (meta_file meta) in
    retrieval_intent_mapping ←
      json_unpickle
        (path_join model_dir (file_name ++ ".retrieval_intent_mapping.pkl")) fs;
    let model := set_retrieval_intent_mapping retrieval_intent_mapping model in
    let model := set_responses (default [] (meta_responses meta)) model in
    Return model.

End ResponseSelector.

(** ** The [DIET2DIET] model *)

(** The signature of one feature array: whether it is sparse and its shape
    (an unknown dimension is [None]). *)
Record FeatureSignature := {
  is_sparse : bool;
  shape : list (option Z);
}.

#[global] Instance FeatureSignature_eq_dec : EqDecision FeatureSignature.
Proof. solve_decision. Defined.

Abbreviation DataSignature := (gmap string (list FeatureSignature)).

(** The fields of the model this module reads or writes. Tensors and layers
    are opaque. *)
Record DIET2DIET {Tensor Layer : Type} := {
  config : Config;
  data_signature : DataSignature;
  predict_data_signature : DataSignature;
  metrics_to_log : list string;
  tf_label_data : gmap string (list Tensor);
  _tf_layers : gmap string Layer;
  text_name : string;
  label_name : string;
  all_labels_embed : option Tensor;
}.
Arguments DIET2DIET : clear implicits.

(** What the model inherits from [DIET] and [RasaModel] or calls in
    TensorFlow. [_create_sequence] is used with its default keyword
    arguments; of its four results only the transformed sequence is kept. *)
Class DIET (Tensor Layer BatchIn : Type) := {
  batch_to_model_data_format : BatchIn -> DataSignature -> gmap string (list Tensor);
  _get_mask_for : gmap string (list Tensor) -> string -> option Tensor;
  shape_0 : Tensor -> Tensor;
  _get_sequence_lengths : gmap string (list Tensor) -> string -> Z + Tensor -> Tensor;
  _compute_mask : Tensor -> Tensor;
  _create_sequence :
    DIET2DIET Tensor Layer -> list Tensor -> list Tensor -> option Tensor -> Tensor ->
    string -> Tensor * option Tensor * option Tensor * option Tensor;
  _last_token : Tensor -> Tensor -> Tensor;
  layer_call : Layer -> Tensor -> Tensor;
  layer_sim : Layer -> Tensor -> Tensor -> Tensor;
  layer_confidence_from_sim : Layer -> Tensor -> Any -> Tensor;
  new_axis : nat -> Tensor -> Tensor;
}.

(** [s.split("_")]. *)
Fixpoint split_underscore (s : string) : list string :=
  match s with
  | EmptyString => [EmptyString]
  | String c rest =>
      if Ascii.eqb c "_"%char
      then EmptyString :: split_underscore rest
      else
        match split_underscore rest with
        | part :: parts => String c part :: parts
        | [] => [String c EmptyString]
        end
  end.

(** [l[1]] on a list. *)
Definition second_item {A} (l : list A) : result A :=
  match l with
  | _ :: x :: _ => Return x
  | _ => Raise IndexError
  end.

Section DIET2DIET.

Context {Tensor Layer BatchIn : Type}.
Context `{!DIET Tensor Layer BatchIn}.

Local Abbreviation Model := (DIET2DIET Tensor Layer).

(** [_check_data]. *)
Definition _check_data (self : Model) : result unit :=
  if decide (data_signature self !! TEXT_SENTENCE_FEATURES = None)
  then Raise InvalidConfigError
  else
    if decide (data_signature self !! LABEL_SENTENCE_FEATURES = None)
    then Raise InvalidConfigError
    else
      share_hidden_layers ← getitem (config self) SHARE_HIDDEN_LAYERS;
      if truthy share_hidden_layers
      then
        text_signature ← getitem (data_signature self) TEXT_SENTENCE_FEATURES;
        label_signature ← getitem (data_signature self) LABEL_SENTENCE_FEATURES;
        if bool_decide (text_signature ≠ label_signature)
        then Raise ValueError
        else Return tt
      else Return tt.

(** [_log_metric_info]: the lines it writes to the debug log. *)
Definition _log_metric_info (self : Model) : result (list string) :=
  let metric_name : gmap string string :=
    <["r" := "response"]> (<["m" := "mask"]> (<["t" := "total"]> ∅)) in
  lines ←
    for_each
      (fun metric =>
         let parts := split_underscore metric in
         part_0 ← first_item parts;
         long_name ← getitem metric_name part_0;
         part_1 ← second_item parts;
         Return ("  " ++ metric ++ " (" ++ long_name ++ " " ++ part_1 ++ ")")%string)
      (metrics_to_log self);
  Return ("Following metrics will be logged during training: "%string :: lines).

(** [self.metrics_to_log.append(metric)]. *)
Definition append_metric (metric : string) (self : Model) : Model :=
  {| config := config self;
     data_signature := data_signature self;
     predict_data_signature := predict_data_signature self;
     metrics_to_log := metrics_to_log self ++ [metric];
     tf_label_data := tf_label_data self;
     _tf_layers := _tf_layers self;
     text_name := text_name self;
     label_name := label_name self;
     all_labels_embed := all_labels_embed self |}.

(** [_update_metrics_to_log]. Whether the ["rasa"] logger is at debug level
    is global state of the logging module, hence an argument. *)
Definition _update_metrics_to_log (debug_log_level : bool) : St Model unit :=
  (self <~ st_get ;;
   masked_lm <~ st_lift (getitem (config self) MASKED_LM) ;;
   (if truthy masked_lm
    then
      st_modify (append_metric "m_acc") ;;;
      if debug_log_level then st_modify (append_metric "m_loss") else st_ret tt
    else st_ret tt) ;;;
   st_modify (append_metric "r_acc") ;;;
   (if debug_log_level then st_modify (append_metric "r_loss") else st_ret tt) ;;;
   self <~ st_get ;;
   st_lift (_log_metric_info self) ;;;
   st_ret tt)%st.

(** [_create_all_labels]. *)
Definition _create_all_labels (self : Model) : result (Tensor * Tensor) :=
  label_ids ← getitem (tf_label_data self) LABEL_IDS;
  all_label_ids ← first_item label_ids;
  let sequence_mask_label := _get_mask_for (tf_label_data self) LABEL_SEQUENCE_LENGTH in
  let batch_dim := shape_0 all_label_ids in
  let sequence_lengths_label :=
    _get_sequence_lengths (tf_label_data self) LABEL_SEQUENCE_LENGTH (inr batch_dim) in
  let mask_label := _compute_mask sequence_lengths_label in
  sequence_features ← getitem (tf_label_data self) LABEL_SEQUENCE_FEATURES;
  sentence_features ← getitem (tf_label_data self) LABEL_SENTENCE_FEATURES;
  let '(label_transformed, _, _, _) :=
    _create_sequence self sequence_features sentence_features
      sequence_mask_label mask_label (label_name self) in
  let sentence_label := _last_token label_transformed sequence_lengths_label in
  embed_label ← getitem (_tf_layers self) ("embed." ++ LABEL)%string;
  let all_labels_embed := layer_call embed_label sentence_label in
  Return (all_label_ids, all_labels_embed).

(** [self.all_labels_embed = e]. *)
Definition set_all_labels_embed (e : Tensor) (self : Model) : Model :=
  {| config := config self;
     data_signature := data_signature self;
     predict_data_signature := predict_data_signature self;
     metrics_to_log := metrics_to_log self;
     tf_label_data := tf_label_data self;
     _tf_layers := _tf_layers self;
     text_name := text_name self;
     label_name := label_name self;
     all_labels_embed := Some e |}.

(** The scores of [batch_predict] once the sentence vector of the text and
    the label embeddings are at hand. *)
Definition score_against (self : Model) (sentence_vector all_labels_embed : Tensor)
  : result (gmap string Tensor) :=
  embed_text ← getitem (_tf_layers self) ("embed." ++ TEXT)%string;
  let sentence_vector_embed := layer_call embed_text sentence_vector in
  loss_label ← getitem (_tf_layers self) ("loss." ++ LABEL)%string;
  let sim_all :=
    layer_sim loss_label (new_axis 1 sentence_vector_embed) (new_axis 0 all_labels_embed) in
  similarity_type ← getitem (config self) SIMILARITY_TYPE;
  let scores := layer_confidence_from_sim loss_label sim_all similarity_type in
  Return (<["i_scores" := scores]> ∅).

(** The sentence vector [batch_predict] computes for the text of a batch. *)
Definition text_sentence_vector (self : Model) (batch_in : BatchIn) : result Tensor :=
  let tf_batch_data := batch_to_model_data_format batch_in (predict_data_signature self) in
  let sequence_mask_text := _get_mask_for tf_batch_data TEXT_SEQUENCE_LENGTH in
  let sequence_lengths_text :=
    _get_sequence_lengths tf_batch_data TEXT_SEQUENCE_LENGTH (inl 1) in
  let mask_text := _compute_mask sequence_lengths_text in
  sequence_features ← getitem tf_batch_data TEXT_SEQUENCE_FEATURES;
  sentence_features ← getitem tf_batch_data TEXT_SENTENCE_FEATURES;
  let '(text_transformed, _, _, _) :=
    _create_sequence self sequence_features sentence_features
      sequence_mask_text mask_text (text_name self) in
  Return (_last_token text_transformed sequence_lengths_text).

(** [batch_predict]. The cache [all_labels_embed] is the only field it
    assigns. *)
Definition batch_predict (batch_in : BatchIn) : St Model (gmap string Tensor) :=
  (self <~ st_get ;;
   sentence_vector <~ st_lift (text_sentence_vector self batch_in) ;;
   (match all_labels_embed self with
    | None =>
        created <~ st_lift (_create_all_labels self) ;;
        st_modify (set_all_labels_embed (snd created))
    | Some _ => st_ret tt
    end) ;;;
   self <~ st_get ;;
   match all_labels_embed self with
   | Some embed => st_lift (score_against self sentence_vector embed)
   | None => st_lift (Raise TypeError)
   end)%st.

(** The model after a series of [batch_predict] calls, whether they
    returned or raised. *)
Definition after_calls (batches : list BatchIn) (self : Model) : Model :=
  fold_left (fun model batch_in => snd (batch_predict batch_in model)) batches self.

End DIET2DIET.

(** ** The [DIET2DIET] model: layers, metrics and the training loss *)

Definition SPARSE_INPUT_DROPOUT : string := "use_sparse_input_dropout".
Definition DENSE_INPUT_DROPOUT : string := "use_dense_input_dropout".

(** A [tf.keras.metrics.Mean] as far as this module deals with it: the
    name it was created with and the values [update_state] has fed it,
    oldest first. *)
Record Mean {Tensor : Type} := {
  mean_name : string;
  mean_updates : list Tensor;
}.
Arguments Mean : clear implicits.

(** The four metrics [_create_metrics] puts on the model. *)
Record Metrics {Tensor : Type} := {
  mask_loss : Mean Tensor;
  response_loss : Mean Tensor;
  mask_acc : Mean Tensor;
  response_acc : Mean Tensor;
}.
Arguments Metrics : clear implicits.

(** What the model inherits from [DIET] for building its layers and for
    the training loss. The layer builders write to [_tf_layers] only, so
    each is given by the layer table it leaves. [_create_sequence_with] is
    [_create_sequence] called with the keyword arguments [sparse_dropout],
    [dense_dropout], [masked_lm_loss] and [sequence_ids]. *)
Class DIETTraining (Tensor Layer : Type) := {
  _prepare_sequence_layers : DIET2DIET Tensor Layer -> string -> gmap string Layer;
  _prepare_mask_lm_layers : DIET2DIET Tensor Layer -> string -> gmap string Layer;
  _prepare_label_classification_layers : DIET2DIET Tensor Layer -> gmap string Layer;
  _get_batch_dim : gmap string (list Tensor) -> Tensor;
  _create_sequence_with :
    DIET2DIET Tensor Layer -> list Tensor -> list Tensor -> option Tensor -> Tensor ->
    string -> Any -> Any -> Any -> bool ->
    Tensor * option Tensor * option Tensor * option Tensor;
  _mask_loss :
    DIET2DIET Tensor Layer -> Tensor -> option Tensor -> option Tensor -> option Tensor ->
    string -> Tensor * Tensor;
  _calculate_label_loss :
    DIET2DIET Tensor Layer -> Tensor -> Tensor -> Tensor -> Tensor * Tensor;
  add_n : list Tensor -> Tensor;
}.

(** ["_".join(parts)]. *)
Fixpoint join_underscore (parts : list string) : string :=
  match parts with
  | [] => EmptyString
  | [part] => part
  | part :: rest => (part ++ "_" ++ join_underscore rest)%string
  end.

(** A metric name [_log_metric_info] can describe: its first part is one of
    ["t"], ["m"], ["r"] and it has a second part. *)
Definition loggable (metric : string) : bool :=
  match split_underscore metric with
  | part_0 :: _ :: _ =>
      bool_decide (part_0 = "t"%string ∨ part_0 = "m"%string ∨ part_0 = "r"%string)
  | _ => false
  end.

Section DIET2DIETTraining.

Context {Tensor Layer BatchIn : Type}.
Context `{!DIET Tensor Layer BatchIn}.
Context `{!DIETTraining Tensor Layer}.

Local Abbreviation Model := (DIET2DIET Tensor Layer).

(** [_create_metrics]. *)
Definition _create_metrics : Metrics Tensor :=
  {| mask_loss := {| mean_name := "m_loss"; mean_updates := [] |};
     response_loss := {| mean_name := "r_loss"; mean_updates := [] |};
     mask_acc := {| mean_name := "m_acc"; mean_updates := [] |};
     response_acc := {| mean_name := "r_acc"; mean_updates := [] |} |}.

(** The names of the metrics a model has. *)
Definition metric_names (metrics : Metrics Tensor) : list string :=
  [mean_name (mask_loss metrics); mean_name (response_loss metrics);
   mean_name (mask_acc metrics); mean_name (response_acc metrics)].

(** [metric.update_state(value)]. *)
Definition update_state (value : Tensor) (metric : Mean Tensor) : Mean Tensor :=
  {| mean_name := mean_name metric; mean_updates := mean_updates metric ++ [value] |}.

Definition update_mask_loss (value : Tensor) (metrics : Metrics Tensor) : Metrics Tensor :=
  {| mask_loss := update_state value (mask_loss metrics);
     response_loss := response_loss metrics;
     mask_acc := mask_acc metrics;
     response_acc := response_acc metrics |}.

Definition update_mask_acc (value : Tensor) (metrics : Metrics Tensor) : Metrics Tensor :=
  {| mask_loss := mask_loss metrics;
     response_loss := response_loss metrics;
     mask_acc := update_state value (mask_acc metrics);
     response_acc := response_acc metrics |}.

Definition update_response_loss (value : Tensor) (metrics : Metrics Tensor) : Metrics Tensor :=
  {| mask_loss := mask_loss metrics;
     response_loss := update_state value (response_loss metrics);
     mask_acc := mask_acc metrics;
     response_acc := response_acc metrics |}.

Definition update_response_acc (value : Tensor) (metrics : Metrics Tensor) : Metrics Tensor :=
  {| mask_loss := mask_loss metrics;
     response_loss := response_loss metrics;
     mask_acc := mask_acc metrics;
     response_acc := update_state value (response_acc metrics) |}.

(** Field assignments of [_prepare_layers]. *)
Definition set_text_name (n : string) (self : Model) : Model :=
  {| config := config self;
     data_signature := data_signature self;
     predict_data_signature := predict_data_signature self;
     metrics_to_log := metrics_to_log self;
     tf_label_data := tf_label_data self;
     _tf_layers := _tf_layers self;
     text_name := n;
     label_name := label_name self;
     all_labels_embed := all_labels_embed self |}.

Definition set_label_name (n : string) (self : Model) : Model :=
  {| config := config self;
     data_signature := data_signature self;
     predict_data_signature := predict_data_signature self;
     metrics_to_log := metrics_to_log self;
     tf_label_data := tf_label_data self;
     _tf_layers := _tf_layers self;
     text_name := text_name self;
     label_name := n;
     all_labels_embed := all_labels_embed self |}.

Definition set_tf_layers (layers : gmap string Layer) (self : Model) : Model :=
  {| config := config self;
     data_signature := data_signature self;
     predict_data_signature := predict_data_signature self;
     metrics_to_log := metrics_to_log self;
     tf_label_data := tf_label_data self;
     _tf_layers := layers;
     text_name := text_name self;
     label_name := label_name self;
     all_labels_embed := all_labels_embed self |}.

(** [_prepare_layers]. *)
Definition _prepare_layers : St Model unit :=
  (st_modify (set_text_name TEXT) ;;;
   self <~ st_get ;;
   share_hidden_layers <~ st_lift (getitem (config self) SHARE_HIDDEN_LAYERS) ;;
   st_modify (set_label_name (if truthy share_hidden_layers then TEXT else LABEL)) ;;;
   self <~ st_get ;;
   st_modify (set_tf_layers (_prepare_sequence_layers self (text_name self))) ;;;
   self <~ st_get ;;
   st_modify (set_tf_layers (_prepare_sequence_layers self (label_name self))) ;;;
   self <~ st_get ;;
   masked_lm <~ st_lift (getitem (config self) MASKED_LM) ;;
   (if truthy masked_lm
    then st_modify (set_tf_layers (_prepare_mask_lm_layers self (text_name self)))
    else st_ret tt) ;;;
   self <~ st_get ;;
   st_modify (set_tf_layers (_prepare_label_classification_layers self)))%st.

(** [batch_loss]. The model is only read; what the method writes to are the
    four metrics, so it is a computation over them. *)
Definition batch_loss (self : Model) (batch_in : BatchIn) : St (Metrics Tensor) Tensor :=
  (let tf_batch_data := batch_to_model_data_format batch_in (data_signature self) in
   let batch_dim := _get_batch_dim tf_batch_data in
   let sequence_mask_text := _get_mask_for tf_batch_data TEXT_SEQUENCE_LENGTH in
   let sequence_lengths_text :=
     _get_sequence_lengths tf_batch_data TEXT_SEQUENCE_LENGTH (inr batch_dim) in
   let mask_text := _compute_mask sequence_lengths_text in
   text_sequence_features <~ st_lift (getitem tf_batch_data TEXT_SEQUENCE_FEATURES) ;;
   text_sentence_features <~ st_lift (getitem tf_batch_data TEXT_SENTENCE_FEATURES) ;;
   sparse_dropout <~ st_lift (getitem (config self) SPARSE_INPUT_DROPOUT) ;;
   dense_dropout <~ st_lift (getitem (config self) DENSE_INPUT_DROPOUT) ;;
   masked_lm_loss <~ st_lift (getitem (config self) MASKED_LM) ;;
   let '(text_transformed, text_in, text_seq_ids, lm_mask_bool_text) :=
     _create_sequence_with self text_sequence_features text_sentence_features
       sequence_mask_text mask_text (text_name self)
       sparse_dropout dense_dropout masked_lm_loss true in
   let sequence_mask_label := _get_mask_for tf_batch_data LABEL_SEQUENCE_LENGTH in
   let sequence_lengths_label :=
     _get_sequence_lengths tf_batch_data LABEL_SEQUENCE_LENGTH (inr batch_dim) in
   let mask_label := _compute_mask sequence_lengths_label in
   label_sequence_features <~ st_lift (getitem tf_batch_data LABEL_SEQUENCE_FEATURES) ;;
   label_sentence_features <~ st_lift (getitem tf_batch_data LABEL_SENTENCE_FEATURES) ;;
   let '(label_transformed, _, _, _) :=
     _create_sequence self label_sequence_features label_sentence_features
       sequence_mask_label mask_label (label_name self) in
   masked_lm <~ st_lift (getitem (config self) MASKED_LM) ;;
   losses <~
     (if truthy masked_lm
      then
        let '(loss, acc) :=
          _mask_loss self text_transformed text_in text_seq_ids lm_mask_bool_text
            (text_name self) in
        st_modify (update_mask_loss loss) ;;;
        st_modify (update_mask_acc acc) ;;;
        st_ret [loss]
      else st_ret []) ;;
   let sentence_vector_text := _last_token text_transformed sequence_lengths_text in
   let sentence_vector_label := _last_token label_transformed sequence_lengths_label in
   label_ids <~ st_lift (getitem tf_batch_data LABEL_IDS) ;;
   label_ids <~ st_lift (first_item label_ids) ;;
   let '(loss, acc) :=
     _calculate_label_loss self sentence_vector_text sentence_vector_label label_ids in
   st_modify (update_response_loss loss) ;;;
   st_modify (update_response_acc acc) ;;;
   st_ret (add_n (losses ++ [loss])))%st.

End DIET2DIETTraining.

(** ** A small implementation of the interfaces

    To run the component and the model on concrete inputs the interfaces
    need an implementation. The one below is deliberately plain: a trained
    model is the answer it gives, the training data is a list of examples
    with its responses, the file system is a table of pickled mappings and
    of persisted components, and tensors are integers. *)

(** What the parent's [_predict_label] answers when there is nothing to
    predict from: [{"name": None, "id": None, "confidence": 0.0}] and an
    empty ranking. *)
Definition no_prediction : Label * list Label :=
  ({| id := None; name := None; confidence := 0%float |}, []).

(** A hash of strings (a polynomial in the character codes). *)
Definition example_hash (v : Any) : Z :=
  match v with
  | PStr s =>
      fold_left (fun h c => (31 * h + Z.of_N (N_of_ascii c)) mod 2 ^ 61)
        (list_ascii_of_string s) 7
  | PInt z => z
  | PBool true => 1
  | _ => 0
  end.

Record ExampleData := {
  training_examples : list Message;
  example_responses : Registry;
}.

(** Labels numbered in first-seen order. *)
Definition example_label_id_index_mapping (td : ExampleData) (attribute : string)
  : gmap string Z :=
  fold_left
    (fun m ex =>
       match message_get ex attribute with
       | Some l => if decide (m !! l = None) then <[l := Z.of_nat (size m)]> m else m
       | None => m
       end)
    (filter (fun ex => truthy_text (message_get ex INTENT)) (training_examples td)) ∅.

#[global] Instance example_classifier :
  DIETClassifier (Label * list Label) (list Message) (Label * list Label) ExampleData := {|
  hash := example_hash;
  _predict := fun self _ => model self;
  _predict_label := fun _ out => default no_prediction out;
  intent_examples := fun td =>
    filter (fun ex => truthy_text (message_get ex INTENT)) (training_examples td);
  training_data_responses := example_responses;
  filter_training_examples := fun cond td =>
    {| training_examples := filter (fun ex => cond ex) (training_examples td);
       example_responses := example_responses td |};
  _label_id_index_mapping := example_label_id_index_mapping;
  _invert_mapping := fun m => map_fold (fun k v acc => <[v := k]> acc) ∅ m;
  _create_label_data := fun _ td _ _ => Return (training_examples td);
  _create_model_data := fun _ examples _ _ => Return examples;
  _check_input_dimension_consistency := fun _ _ => Return tt;
  empty_RasaModelData := [];
|}.

Abbreviation ExampleSelector := (ResponseSelector (Label * list Label) (list Message)).

(** The file system: pickled mappings by path, and the components the
    parent class persisted, by path. *)
Record ExampleFS := {
  pickles : gmap string (gmap (option string) (option string));
  components : gmap string ExampleSelector;
}.

(** What the parent class knows of a component: everything but the two
    fields the selector adds, which a freshly constructed component has
    empty. *)
Definition parent_part (self : ExampleSelector) : ExampleSelector :=
  {| component_config := component_config self;
     index_label_id_mapping := index_label_id_mapping self;
     _label_data := _label_data self;
     model := model self;
     retrieval_intent := retrieval_intent self;
     retrieval_intent_mapping := ∅;
     responses := [] |}.

#[global] Instance example_persistence :
  Persistence (Label * list Label) (list Message) ExampleFS := {|
  super_persist := fun self file_name model_dir fs =>
    {| pickles := pickles fs;
       components := <[path_join model_dir file_name := parent_part self]> (components fs) |};
  super_load := fun meta model_dir _ fs =>
    if truthy_text (meta_file meta)
    then
      match components fs !! path_join model_dir (default "" (meta_file meta)) with
      | Some c => Return c
      | None => Raise IOError
      end
    else Return (__init__ None None None None None);
  json_pickle := fun path obj fs =>
    {| pickles := <[path := obj]> (pickles fs); components := components fs |};
  json_unpickle := fun path fs =>
    match pickles fs !! path with
    | Some obj => Return obj
    | None => Raise IOError
    end;
|}.


Definition example_config (train_on_text : bool) : Config :=
  <[TRAIN_ON_TEXT := PBool train_on_text]>
    (<[MASKED_LM := PBool false]> (<[SHARE_HIDDEN_LAYERS := PBool true]> ∅)).

Definition ask_name_payload : Response :=
  <["text" := PStr "My name is Sara."]> ∅.

Definition ask_name_label : Label :=
  {| id := Some (example_hash (PStr "chitchat/ask_name"));
     name := Some "chitchat/ask_name";
     confidence := 0.75%float |}.

Definition ask_weather_label : Label :=
  {| id := Some (example_hash (PStr "chitchat/ask_weather"));
     name := Some "chitchat/ask_weather";
     confidence := 0.25%float |}.

(** A selector whose model predicts [chitchat/ask_name] ahead of
    [chitchat/ask_weather]; its registry knows [registry]. *)
Definition example_selector (registry : Registry) : ExampleSelector :=
  {| component_config := example_config false;
     index_label_id_mapping :=
       <[0 := "chitchat/ask_name"%string]> (<[1 := "chitchat/ask_weather"%string]> ∅);
     _label_data := None;
     model := Some (ask_name_label, [ask_name_label; ask_weather_label]);
     retrieval_intent := None;
     retrieval_intent_mapping := <[Some "chitchat/ask_name"%string := Some "chitchat"%string]> ∅;
     responses := registry |}.

Definition full_registry : Registry :=
  [("chitchat/ask_weather"%string, [(<["text" := PStr "It is sunny."]> ∅ : Response)]);
   ("chitchat/ask_name"%string, [ask_name_payload])].

Definition partial_registry : Registry :=
  [("chitchat/ask_weather"%string, [(<["text" := PStr "It is sunny."]> ∅ : Response)])].

(** A selector as training on zero labels leaves it: no model; the
    registry holds the responses of the training data all the same. *)
Definition untrained_selector : ExampleSelector :=
  {| component_config := example_config false;
     index_label_id_mapping := ∅;
     _label_data := None;
     model := None;
     retrieval_intent := Some "faq"%string;
     retrieval_intent_mapping := ∅;
     responses := full_registry |}.

Definition hello : Message :=
  {| text := "what is your name?";
     data := ∅;
     response_selector := None;
     output_properties := ∅ |}.

Definition example_training_data : ExampleData :=
  {| training_examples :=
       [{| text := "what is your name?";
           data := <[INTENT := "chitchat"%string]>
                     (<[INTENT_RESPONSE_KEY := "chitchat/ask_name"%string]>
                        (<[RESPONSE := "My name is Sara."%string]> ∅));
           response_selector := None;
           output_properties := ∅ |}];
     example_responses := full_registry |}.

(** What [process] attaches to [hello] on [example_selector full_registry]. *)
Definition answered_prediction : Prediction :=
  {| prediction_response := ask_name_payload;
     prediction_ranking :=
       [{| ranking_label := ask_name_label;
           full_retrieval_intent := Some "chitchat/ask_name"%string |};
        {| ranking_label := ask_weather_label;
           full_retrieval_intent := Some "chitchat/ask_weather"%string |}];
     prediction_full_retrieval_intent := "chitchat/ask_name" |}.

Definition answered_hello : Message :=
  {| text := "what is your name?";
     data := ∅;
     response_selector := Some (<[DEFAULT_OPEN_UTTERANCE_TYPE := answered_prediction]> ∅);
     output_properties := {[RESPONSE_SELECTOR_PROPERTY_NAME]} |}.

(** A selector configured for the retrieval intent [faq] that still holds
    the mapping of an earlier training and no responses. *)
Definition stale_faq_selector : ExampleSelector :=
  {| component_config := example_config false;
     index_label_id_mapping := ∅;
     _label_data := None;
     model := None;
     retrieval_intent := Some "faq"%string;
     retrieval_intent_mapping := <[Some "faq/ask_price"%string := Some "faq"%string]> ∅;
     responses := [] |}.

(** Tensors as integers, a layer as the factor it multiplies by. *)
#[global] Instance example_diet : DIET Z Z Z := {|
  batch_to_model_data_format := fun batch_in _ =>
    <[TEXT_SEQUENCE_FEATURES := [batch_in]]> (<[TEXT_SENTENCE_FEATURES := [batch_in]]> ∅);
  _get_mask_for := fun _ _ => None;
  shape_0 := fun t => t;
  _get_sequence_lengths := fun _ _ _ => 1;
  _compute_mask := fun t => t;
  _create_sequence := fun _ sequence sentence _ _ _ =>
    (foldr Z.add 0 sequence + foldr Z.add 0 sentence, None, None, None);
  _last_token := fun t _ => t;
  layer_call := fun w t => w * t;
  layer_sim := fun _ a b => a * b;
  layer_confidence_from_sim := fun _ sim _ => sim;
  new_axis := fun _ t => t;
|}.

Definition dense (shape : list (option Z)) : FeatureSignature :=
  {| is_sparse := false; shape := shape |}.

(** A model built for [signature], before its first prediction. *)
Definition example_model (signature : DataSignature) : DIET2DIET Z Z :=
  {| config := <[SIMILARITY_TYPE := PStr "inner"]> (example_config false);
     data_signature := signature;
     predict_data_signature := signature;
     metrics_to_log := [];
     tf_label_data :=
       <[LABEL_IDS := [0]]>
         (<[LABEL_SEQUENCE_FEATURES := [3]]> (<[LABEL_SENTENCE_FEATURES := [4]]> ∅));
     _tf_layers :=
       <["embed.label"%string := 2]>
         (<["embed.text"%string := 5]> (<["loss.label"%string := 1]> ∅));
     text_name := TEXT;
     label_name := TEXT;
     all_labels_embed := None |}.

(** Text and label agree on the sentence features and differ on the
    sequence features (128 against 64 columns). *)
Definition mismatched_sequence_signature : DataSignature :=
  <[TEXT_SEQUENCE_FEATURES := [dense [None; None; Some 128]]]>
    (<[TEXT_SENTENCE_FEATURES := [dense [None; Some 1; Some 128]]]>
       (<[LABEL_SEQUENCE_FEATURES := [dense [None; None; Some 64]]]>
          (<[LABEL_SENTENCE_FEATURES := [dense [None; Some 1; Some 128]]]> ∅))).

(** Only the label attribute has features. *)
Definition label_only_signature : DataSignature :=
  <[LABEL_SEQUENCE_FEATURES := [dense [None; None; Some 64]]]>
    (<[LABEL_SENTENCE_FEATURES := [dense [None; Some 1; Some 64]]]> ∅).

(** A selector filing its predictions under the retrieval intent
    [chitchat]. *)
Definition chitchat_selector : ExampleSelector :=
  {| component_config := example_config false;
     index_label_id_mapping := ∅;
     _label_data := None;
     model := Some (ask_weather_label, [ask_weather_label]);
     retrieval_intent := Some "chitchat"%string;
     retrieval_intent_mapping := ∅;
     responses := full_registry |}.

(** What [process] on [chitchat_selector] attaches. *)
Definition chitchat_prediction : Prediction :=
  {| prediction_response := <["text" := PStr "It is sunny."]> ∅;
     prediction_ranking :=
       [{| ranking_label := ask_weather_label;
           full_retrieval_intent := Some "chitchat/ask_weather"%string |}];
     prediction_full_retrieval_intent := "chitchat/ask_weather" |}.

(** A registry whose entry for [chitchat/ask_name] lists no response. *)
Definition registry_with_empty_entry : Registry :=
  [("chitchat/ask_weather"%string, [(<["text" := PStr "It is sunny."]> ∅ : Response)]);
   ("chitchat/ask_name"%string, [])].

(** A selector trained on response texts: the label is the text. *)
Definition text_label : Label :=
  {| id := Some (example_hash (PStr "My name is Sara."));
     name := Some "My name is Sara.";
     confidence := 0.75%float |}.

Definition text_selector : ExampleSelector :=
  {| component_config := example_config true;
     index_label_id_mapping := ∅;
     _label_data := None;
     model := Some (text_label, [text_label]);
     retrieval_intent := None;
     retrieval_intent_mapping := <[Some "My name is Sara."%string := Some "chitchat/ask_name"%string]> ∅;
     responses := full_registry |}.

(** A selector whose configuration is empty. *)
Definition unconfigured_selector : ExampleSelector :=
  {| component_config := ∅;
     index_label_id_mapping := ∅;
     _label_data := None;
     model := None;
     retrieval_intent := None;
     retrieval_intent_mapping := <[Some "faq/ask_price"%string := Some "faq"%string]> ∅;
     responses := [] |}.

(** The same parent class with a consistency check that rejects every
    model data. *)
Definition rejecting_classifier :
  DIETClassifier (Label * list Label) (list Message) (Label * list Label) ExampleData := {|
  hash := example_hash;
  _predict := fun self _ => model self;
  _predict_label := fun _ out => default no_prediction out;
  intent_examples := fun td =>
    filter (fun ex => truthy_text (message_get ex INTENT)) (training_examples td);
  training_data_responses := example_responses;
  filter_training_examples := fun cond td =>
    {| training_examples := filter (fun ex => cond ex) (training_examples td);
       example_responses := example_responses td |};
  _label_id_index_mapping := example_label_id_index_mapping;
  _invert_mapping := fun m => map_fold (fun k v acc => <[v := k]> acc) ∅ m;
  _create_label_data := fun _ td _ _ => Return (training_examples td);
  _create_model_data := fun _ examples _ _ => Return examples;
  _check_input_dimension_consistency := fun _ _ => Raise ValueError;
  empty_RasaModelData := [];
|}.

(** Layers named after what they are built for, losses as differences. *)
#[global] Instance example_training : DIETTraining Z Z := {|
  _prepare_sequence_layers := fun self name =>
    <[("ffnn." ++ name)%string := 1]> (_tf_layers self);
  _prepare_mask_lm_layers := fun self name =>
    <[(name ++ "_input_mask")%string := 1]> (_tf_layers self);
  _prepare_label_classification_layers := fun self =>
    <["embed.text"%string := 5]>
      (<["embed.label"%string := 2]> (<["loss.label"%string := 1]> (_tf_layers self)));
  _get_batch_dim := fun _ => 1;
  _create_sequence_with := fun _ sequence sentence _ _ _ _ _ _ _ =>
    (foldr Z.add 0 sequence + foldr Z.add 0 sentence, Some 0, Some 0, None);
  _mask_loss := fun _ text_transformed _ _ _ _ => (text_transformed, 1);
  _calculate_label_loss := fun _ text label _ => (text - label, 0);
  add_n := foldr Z.add 0;
|}.

(** A training batch: the text features, the label features and, unless
    negative, the label id. *)
Definition example_training_diet : DIET Z Z (Z * Z * Z) := {|
  batch_to_model_data_format := fun '(text, label, label_id) _ =>
    let features : gmap string (list Z) :=
      <[TEXT_SEQUENCE_FEATURES := [text]]>
        (<[TEXT_SENTENCE_FEATURES := [text]]>
           (<[LABEL_SEQUENCE_FEATURES := [label]]>
              (<[LABEL_SENTENCE_FEATURES := [label]]> ∅))) in
    if 0 <=? label_id then <[LABEL_IDS := [label_id]]> features else features;
  _get_mask_for := fun _ _ => None;
  shape_0 := fun t => t;
  _get_sequence_lengths := fun _ _ _ => 1;
  _compute_mask := fun t => t;
  _create_sequence := fun _ sequence sentence _ _ _ =>
    (foldr Z.add 0 sequence + foldr Z.add 0 sentence, None, None, None);
  _last_token := fun t _ => t;
  layer_call := fun w t => w * t;
  layer_sim := fun _ a b => a * b;
  layer_confidence_from_sim := fun _ sim _ => sim;
  new_axis := fun _ t => t;
|}.

(** [example_model] with another configuration, label data or layers. *)
Definition example_model_with
    (config : Config) (label_data : gmap string (list Z)) (layers : gmap string Z)
  : DIET2DIET Z Z :=
  {| config := config;
     data_signature := mismatched_sequence_signature;
     predict_data_signature := mismatched_sequence_signature;
     metrics_to_log := [];
     tf_label_data := label_data;
     _tf_layers := layers;
     text_name := TEXT;
     label_name := LABEL;
     all_labels_embed := None |}.

Definition training_config (masked_lm : bool) : Config :=
  <[MASKED_LM := PBool masked_lm]>
    (<[SPARSE_INPUT_DROPOUT := PBool false]>
       (<[DENSE_INPUT_DROPOUT := PBool false]>
          (<[SHARE_HIDDEN_LAYERS := PBool false]>
             (<[SIMILARITY_TYPE := PStr "inner"]> ∅)))).

Definition example_label_data : gmap string (list Z) :=
  <[LABEL_IDS := [0]]>
    (<[LABEL_SEQUENCE_FEATURES := [3]]> (<[LABEL_SENTENCE_FEATURES := [4]]> ∅)).

Definition example_layers : gmap string Z :=
  <["embed.label"%string := 2]>
    (<["embed.text"%string := 5]> (<["loss.label"%string := 1]> ∅)).

(** ** Properties of the [ResponseSelector] component *)

(** What the specification says of the ranking's ["full_retrieval_intent"]:
    looked up in the mapping when NOT training on text, the label's own name
    otherwise. Kept apart from [annotate_ranking], which is the code. *)
Definition spec_full_retrieval_intent
    (train_on_text : bool) (mapping : Mapping) (ranking : Label) : option string :=
  if negb train_on_text
  then mjoin (mapping !! name ranking)
  else name ranking.

(** A registry has no entry for a label when no key (when labels are
    retrieval-intent keys) or no response text (when labels are texts)
    hashes to the label's id. *)
Definition unresolved (hash : Any -> Z) (train_on_text : bool)
    (registry : Registry) (label : Label) : Prop :=
  if train_on_text
  then ∀ key responses response,
         (key, responses) ∈ registry → response ∈ responses →
         match default (PStr "") (response !! TEXT) with
         | PList _ | PDict _ => False
         | v => Some (hash v) ≠ id label
         end
  else ∀ key responses,
         (key, responses) ∈ registry → Some (hash (PStr key)) ≠ id label.

(** Two components agree on what the parent class persists and loads:
    every field but the mapping and the registry. *)
Definition same_parent_state {RasaModel RasaModelData : Type}
    (a b : ResponseSelector RasaModel RasaModelData) : Prop :=
  component_config a = component_config b ∧
  index_label_id_mapping a = index_label_id_mapping b ∧
  _label_data a = _label_data b ∧
  model a = model b ∧
  retrieval_intent a = retrieval_intent b.

Section ResponseSelectorProperties.

Context {RasaModel RasaModelData PredictOut TrainingData FS : Type}.
Context `{!DIETClassifier RasaModel RasaModelData PredictOut TrainingData}.
Context `{!Persistence RasaModel RasaModelData FS}.

Local Abbreviation Selector := (ResponseSelector RasaModel RasaModelData).

Lemma first_response_with_id_unresolved (responses : list Response) (label : Label) :
  (∀ response, response ∈ responses →
     match default (PStr "") (response !! TEXT) with
     | PList _ | PDict _ => False
     | v => Some (hash v) ≠ id label
     end) →
  first_response_with_id responses label = Return None.
Proof.
  induction responses as [|response rest IH]; intros Hno; [reflexivity|].
  cbn [first_response_with_id].
  pose proof (Hno response (list_elem_of_here _ _)) as Hhead.
  assert (Hrest : first_response_with_id rest label = Return None).
  { apply IH. intros r Hr. apply Hno. by apply list_elem_of_further. }
  destruct (default (PStr "") (response !! TEXT)) eqn:Etext; cbn in *;
    try contradiction;
    rewrite bool_decide_eq_false_2 by assumption; exact Hrest.
Qed.

(** [_full_response] walks the whole registry and returns [None] when no
    entry hashes to the label's id. *)
Lemma full_response_unresolved (self : Selector) (label : Label) (v : Any) :
  component_config self !! TRAIN_ON_TEXT = Some v →
  unresolved hash (truthy v) (responses self) label →
  _full_response self label = Return None.
Proof.
  intros Hcfg. unfold _full_response, unresolved.
  remember (truthy v) as train_on_text eqn:Ev.
  induction (responses self) as [|[key rs] rest IH]; intros Hno; [reflexivity|].
  cbn [full_response_items]. unfold getitem at 1. rewrite Hcfg. cbn. rewrite <- Ev.
  destruct train_on_text.
  - rewrite first_response_with_id_unresolved.
    + cbn. apply IH. intros k' rs' r' Hin Hr.
      apply (Hno k' rs' r'); [by apply list_elem_of_further | exact Hr].
    + intros r Hr. apply (Hno key rs r); [apply list_elem_of_here | exact Hr].
  - cbn. rewrite bool_decide_eq_false_2.
    + apply IH. intros k' rs' Hin. apply (Hno k' rs'). by apply list_elem_of_further.
    + apply (Hno key rs). apply list_elem_of_here.
Qed.

(** Unpacking the [None] of an unresolved label is where [process] stops. *)
Lemma process_unresolved_raises (self : Selector) (message : Message) :
  _full_response self (fst (_predict_label self (_predict self message))) = Return None →
  process self message = Raise TypeError.
Proof.
  unfold process. destruct (_predict_label self (_predict self message)) as [label ranking].
  cbn. intros ->. reflexivity.
Qed.

(** In particular [process] raises on every message, whatever the
    classifier predicts, while the registry is empty. *)
Lemma process_empty_registry_raises (self : Selector) (message : Message) :
  responses self = [] →
  process self message = Raise TypeError.
Proof.
  intros Hempty. apply process_unresolved_raises.
  unfold _full_response. by rewrite Hempty.
Qed.

(** A call of [process] that returns went through all of its statements. *)
Lemma process_returns_inv (self : Selector) (message message' : Message) :
  process self message = Return message' →
  ∃ key payload ranking,
    _full_response self (fst (_predict_label self (_predict self message)))
      = Return (Some (key, payload)) ∧
    for_each (annotate_ranking self) (snd (_predict_label self (_predict self message)))
      = Return ranking ∧
    message' =
      _set_message_property message
        {| prediction_response := payload;
           prediction_ranking := ranking;
           prediction_full_retrieval_intent := key |}
        (selector_key self).
Proof.
  unfold process. destruct (_predict_label self (_predict self message)) as [label rk].
  cbn [fst snd].
  destruct (_full_response self label) as [[[key payload]|]|e]; cbn; try discriminate.
  destruct (for_each (annotate_ranking self) rk) as [ranking|e]; cbn; try discriminate.
  intros [= <-]. by exists key, payload, ranking.
Qed.

Lemma for_each_Forall2 {A B} (body : A → result B) (l : list A) (l' : list B) :
  for_each body l = Return l' →
  Forall2 (fun y x => body x = Return y) l' l.
Proof.
  revert l'. induction l as [|x rest IH]; intros l'; cbn.
  - intros [= <-]. constructor.
  - destruct (body x) as [y|e] eqn:Ey; cbn; try discriminate.
    destruct (for_each body rest) as [ys|e]; cbn; try discriminate.
    intros [= <-]. constructor; [exact Ey | by apply IH].
Qed.

Lemma set_message_property_lookup (message : Message) (p : Prediction) (key : string) :
  response_selector (_set_message_property message p key)
    = Some (<[key := p]> (default ∅ (response_selector message))) ∧
  RESPONSE_SELECTOR_PROPERTY_NAME ∈ output_properties (_set_message_property message p key).
Proof.
  unfold _set_message_property, message_set_selector; cbn. split; [reflexivity | set_solver].
Qed.

(** C1. When the predicted label's id matches no entry of the response
    registry, [_full_response] returns [None] and [process] raises
    [TypeError] on unpacking it: the call does not complete and nothing is
    attached to the message. *)
Theorem process_unresolved_label_raises (self : Selector) (message : Message) (v : Any) :
  component_config self !! TRAIN_ON_TEXT = Some v →
  unresolved hash (truthy v) (responses self)
    (fst (_predict_label self (_predict self message))) →
  process self message = Raise TypeError.
Proof.
  intros Hcfg Hno. apply process_unresolved_raises.
  by apply full_response_unresolved with v.
Qed.

(** A call of [process] that returns has attached the response-selector
    property, listed for output, with a prediction under the selector key
    whose ranking has one entry per candidate of the classifier. *)
Lemma process_attaches_selector_property (self : Selector) (message message' : Message) :
  process self message = Return message' →
  ∃ prediction,
    default ∅ (response_selector message') !! selector_key self = Some prediction ∧
    RESPONSE_SELECTOR_PROPERTY_NAME ∈ output_properties message' ∧
    length (prediction_ranking prediction)
      = length (snd (_predict_label self (_predict self message))).
Proof.
  intros Hret. apply process_returns_inv in Hret as (key & payload & ranking & _ & Hrk & ->).
  eexists. destruct (set_message_property_lookup message
    {| prediction_response := payload; prediction_ranking := ranking;
       prediction_full_retrieval_intent := key |} (selector_key self)) as [-> Hout].
  cbn. rewrite lookup_insert_eq. split; [reflexivity|]. split; [exact Hout|].
  cbn. apply for_each_Forall2 in Hrk. by apply Forall2_length in Hrk.
Qed.

(** A label without an id resolves to no registry entry: no hash equals
    [None]. *)
Lemma first_response_without_id (responses : list Response) (label : Label)
    (response : Response) :
  id label = None →
  first_response_with_id responses label ≠ Return (Some response).
Proof.
  intros Hid. induction responses as [|r rest IH]; [discriminate|].
  cbn [first_response_with_id].
  destruct (py_hash (default (PStr "") (r !! TEXT))) as [h|e]; cbn; [|discriminate].
  rewrite bool_decide_eq_false_2 by (rewrite Hid; discriminate). exact IH.
Qed.

Lemma full_response_without_id (self : Selector) (label : Label)
    (found : string * Response) :
  id label = None →
  _full_response self label ≠ Return (Some found).
Proof.
  intros Hid. unfold _full_response.
  induction (responses self) as [|[key rs] rest IH]; [discriminate|].
  cbn [full_response_items].
  destruct (getitem (component_config self) TRAIN_ON_TEXT) as [v|e]; cbn; [|discriminate].
  destruct (truthy v).
  - destruct (first_response_with_id rs label) as [[r|]|e] eqn:Efirst; cbn;
      [|exact IH|discriminate].
    by apply first_response_without_id in Efirst.
  - rewrite bool_decide_eq_false_2 by (rewrite Hid; discriminate). exact IH.
Qed.

(** C2. When the classifier has nothing to predict from, as on a component
    that training on zero labels left without a model, the label it hands
    over has no id. [process] then never returns the message, unchanged or
    otherwise: no registry entry hashes to [None], and the call raises; with
    labels that are retrieval-intent keys (train-on-text false) the error is
    the [TypeError] of unpacking the [None] of [_full_response]. *)
Theorem process_without_label_id_raises (self : Selector) (message : Message) :
  id (fst (_predict_label self (_predict self message))) = None →
  (∃ e, process self message = Raise e) ∧
  (∀ v, component_config self !! TRAIN_ON_TEXT = Some v → truthy v = false →
        process self message = Raise TypeError).
Proof.
  intros Hid. split.
  - pose proof (full_response_without_id self
                  (fst (_predict_label self (_predict self message)))) as Hnone.
    unfold process in *.
    destruct (_predict_label self (_predict self message)) as [label ranking].
    cbn [fst] in *.
    destruct (_full_response self label) as [[found|]|e]; cbn.
    + by destruct (Hnone found Hid).
    + by exists TypeError.
    + by exists e.
  - intros v Hcfg Hv. apply process_unresolved_raises.
    apply full_response_unresolved with v; [exact Hcfg|].
    rewrite Hv. cbn. intros key rs _. rewrite Hid. discriminate.
Qed.

(** C3, amended. In the prediction [process] attaches, every ranking entry
    is the classifier's candidate at the same position, and its
    ["full_retrieval_intent"] is the mapping's entry for the candidate's
    name exactly when the train-on-text flag is TRUE; when the flag is false
    it is the candidate's own name. *)
Theorem ranking_full_retrieval_intent (self : Selector) (message message' : Message) :
  process self message = Return message' →
  ∃ prediction,
    default ∅ (response_selector message') !! selector_key self = Some prediction ∧
    Forall2
      (fun entry candidate =>
         ranking_label entry = candidate ∧
         ∃ train_on_text,
           component_config self !! TRAIN_ON_TEXT = Some train_on_text ∧
           full_retrieval_intent entry =
             if truthy train_on_text
             then mjoin (retrieval_intent_mapping self !! name candidate)
             else name candidate)
      (prediction_ranking prediction)
      (snd (_predict_label self (_predict self message))).
Proof.
  intros Hret. apply process_returns_inv in Hret as (key & payload & ranking & _ & Hrk & ->).
  eexists. destruct (set_message_property_lookup message
    {| prediction_response := payload; prediction_ranking := ranking;
       prediction_full_retrieval_intent := key |} (selector_key self)) as [-> _].
  cbn. rewrite lookup_insert_eq. split; [reflexivity|]. cbn.
  apply for_each_Forall2 in Hrk. eapply Forall2_impl; [exact Hrk|].
  intros entry candidate. unfold annotate_ranking, getitem.
  destruct (component_config self !! TRAIN_ON_TEXT) as [v|] eqn:Ev; cbn; [|discriminate].
  intros [= <-]. cbn. split; [reflexivity|]. by exists v.
Qed.

(** C6. Whatever configuration the caller supplies (none, an empty one, or
    one that sets the reserved options itself), the constructor, which has
    no failing statement, leaves intent classification at [True], entity
    recognition at [False] and the BILOU flag at [None]. *)
Theorem init_forces_reserved_options
    (caller_config : option Config) (index_label_id_mapping : option (gmap Z string))
    (model : option RasaModel) (retrieval_intent_mapping : option Mapping)
    (responses : option Registry) :
  let self : Selector :=
    __init__ caller_config index_label_id_mapping model retrieval_intent_mapping responses in
  component_config self !! INTENT_CLASSIFICATION = Some (PBool true) ∧
  component_config self !! ENTITY_RECOGNITION = Some (PBool false) ∧
  component_config self !! BILOU_FLAG = Some PNone.
Proof.
  cbn. repeat split.
  - rewrite lookup_insert_ne by done. rewrite lookup_insert_ne by done.
    apply lookup_insert_eq.
  - rewrite lookup_insert_ne by done. apply lookup_insert_eq.
  - apply lookup_insert_eq.
Qed.

(** X26. The options the constructor does not reserve stay as the caller
    gave them. *)
Lemma init_keeps_other_options
    (caller_config : Config) (index_label_id_mapping : option (gmap Z string))
    (model : option RasaModel) (retrieval_intent_mapping : option Mapping)
    (responses : option Registry) (key : string) :
  key ≠ INTENT_CLASSIFICATION → key ≠ ENTITY_RECOGNITION → key ≠ BILOU_FLAG →
  component_config
    (__init__ (Some caller_config) index_label_id_mapping model
       retrieval_intent_mapping responses : Selector) !! key
  = caller_config !! key.
Proof.
  intros H1 H2 H3. cbn. rewrite !lookup_insert_ne by done.
  by destruct (decide (caller_config = ∅)) as [->|].
Qed.

(** Without a model [persist] writes nothing and names no file. *)
Lemma persist_without_model (self : Selector) (file_name model_dir : string) (fs : FS) :
  model self = None →
  persist self file_name model_dir fs
    = ({| meta_file := None; meta_responses := None |}, fs).
Proof. unfold persist. by intros ->. Qed.

(** Metadata that names no file makes [load] hand back what the parent
    loaded, untouched. *)
Lemma load_without_file (meta : Meta) (model_dir : string)
    (cached : option Selector) (fs : FS) :
  truthy_text (meta_file meta) = false →
  load meta model_dir cached fs = super_load meta model_dir cached fs.
Proof.
  intros Hfile. unfold load. rewrite Hfile. cbn.
  by destruct (super_load meta model_dir cached fs).
Qed.


(** C10. When the (filtered) training data yields no label, the method
    returns the empty model data, and by then it has replaced the
    retrieval-intent mapping by the one built from the filtered data and the
    response registry by the data's responses; no other field is assigned. *)
Theorem preprocess_empty_labels_overwrites
    (self : Selector) (training_data : TrainingData) (train_on_text : Any) :
  component_config self !! TRAIN_ON_TEXT = Some train_on_text →
  _label_id_index_mapping (filter_by_retrieval_intent self training_data)
    (if truthy train_on_text then RESPONSE else INTENT_RESPONSE_KEY) = ∅ →
  fst (preprocess_train_data training_data self) = Return empty_RasaModelData ∧
  retrieval_intent_mapping (snd (preprocess_train_data training_data self))
    = _create_retrieval_intent_mapping (filter_by_retrieval_intent self training_data) ∧
  responses (snd (preprocess_train_data training_data self))
    = training_data_responses (filter_by_retrieval_intent self training_data) ∧
  same_parent_state (snd (preprocess_train_data training_data self)) self.
Proof.
  intros Hcfg Hempty.
  unfold preprocess_train_data, st_bind, st_get, st_lift, st_modify, st_ret, getitem.
  rewrite Hcfg. rewrite Hempty.
  destruct (decide (∅ = ∅)) as [_|Hne]; [|done].
  cbn. by repeat split.
Qed.

End ResponseSelectorProperties.

(** ** Properties of the [DIET2DIET] model *)

Section DIET2DIETProperties.

Context {Tensor Layer BatchIn : Type}.
Context `{!DIET Tensor Layer BatchIn}.

Local Abbreviation Model := (DIET2DIET Tensor Layer).

(** What [_check_data] does compare when the hidden layers are shared: the
    sentence features of text and label. *)
Lemma check_data_shared_sentence_mismatch (self : Model) (v : Any)
    (text_signature label_signature : list FeatureSignature) :
  config self !! SHARE_HIDDEN_LAYERS = Some v → truthy v = true →
  data_signature self !! TEXT_SENTENCE_FEATURES = Some text_signature →
  data_signature self !! LABEL_SENTENCE_FEATURES = Some label_signature →
  text_signature ≠ label_signature →
  _check_data self = Raise ValueError.
Proof.
  intros Hcfg Hv Ht Hl Hne. unfold _check_data, getitem.
  rewrite Ht, Hl, Hcfg. cbn. rewrite Hv.
  destruct (decide (Some text_signature = None)); [done|].
  destruct (decide (Some label_signature = None)); [done|].
  cbn. by rewrite bool_decide_eq_true_2.
Qed.

(** The sequence features play no part in it: equal sentence signatures
    pass the check whatever else the data signature holds. *)
Lemma check_data_equal_sentence_signatures (self : Model) (v : Any)
    (signature : list FeatureSignature) :
  config self !! SHARE_HIDDEN_LAYERS = Some v →
  data_signature self !! TEXT_SENTENCE_FEATURES = Some signature →
  data_signature self !! LABEL_SENTENCE_FEATURES = Some signature →
  _check_data self = Return tt.
Proof.
  intros Hcfg Ht Hl. unfold _check_data, getitem.
  rewrite Ht, Hl, Hcfg. cbn.
  destruct (decide (Some signature = None)); [done|].
  destruct (truthy v); [|done].
  cbn. by rewrite bool_decide_eq_false_2 by (intros Hne; by apply Hne).
Qed.

(** C5. A data signature in which the text attribute, or the label
    attribute, has neither sequence nor sentence features makes
    [_check_data] raise [InvalidConfigError]. *)
Theorem check_data_missing_features (self : Model) :
  (data_signature self !! TEXT_SEQUENCE_FEATURES = None ∧
   data_signature self !! TEXT_SENTENCE_FEATURES = None) ∨
  (data_signature self !! LABEL_SEQUENCE_FEATURES = None ∧
   data_signature self !! LABEL_SENTENCE_FEATURES = None) →
  _check_data self = Raise InvalidConfigError.
Proof.
  unfold _check_data. intros [[_ Htext]|[_ Hlabel]].
  - by destruct (decide (data_signature self !! TEXT_SENTENCE_FEATURES = None)).
  - destruct (decide (data_signature self !! TEXT_SENTENCE_FEATURES = None)); [done|].
    by destruct (decide (data_signature self !! LABEL_SENTENCE_FEATURES = None)).
Qed.

Lemma metrics_to_log_append (metric : string) (self : Model) :
  metrics_to_log (append_metric metric self) = metrics_to_log self ++ [metric].
Proof. reflexivity. Qed.

(** C9. With the masked-token head disabled, [_update_metrics_to_log] adds
    the response accuracy, and at debug level the response loss, and
    nothing else: a list that held no mask metric holds none afterwards, and
    from the empty list of a new model the call returns. *)
Theorem update_metrics_without_masked_lm (self : Model) (debug_log_level : bool) (v : Any) :
  config self !! MASKED_LM = Some v →
  truthy v = false →
  "m_acc"%string ∉ metrics_to_log self →
  "m_loss"%string ∉ metrics_to_log self →
  metrics_to_log (snd (_update_metrics_to_log debug_log_level self))
    = metrics_to_log self ++ "r_acc"%string :: (if debug_log_level then ["r_loss"%string] else []) ∧
  ("m_acc"%string ∉ metrics_to_log (snd (_update_metrics_to_log debug_log_level self))) ∧
  ("m_loss"%string ∉ metrics_to_log (snd (_update_metrics_to_log debug_log_level self))) ∧
  (metrics_to_log self = [] →
   fst (_update_metrics_to_log debug_log_level self) = Return tt).
Proof.
  intros Hcfg Hv Hacc Hloss.
  assert (Hlist : metrics_to_log (snd (_update_metrics_to_log debug_log_level self))
    = metrics_to_log self ++ "r_acc"%string :: (if debug_log_level then ["r_loss"%string] else [])).
  { unfold _update_metrics_to_log, st_bind, st_get, st_lift, st_modify, st_ret, getitem.
    rewrite Hcfg, Hv. cbn.
    destruct debug_log_level; cbn.
    - match goal with
      | |- context [match ?r with Return _ => _ | Raise _ => _ end] => destruct r
      end; cbn; by rewrite <- app_assoc.
    - match goal with
      | |- context [match ?r with Return _ => _ | Raise _ => _ end] => by destruct r
      end. }
  split; [exact Hlist|]. rewrite Hlist.
  split; [|split].
  - rewrite elem_of_app, elem_of_cons. intros [?|[?|Hin]]; [done|done|].
    destruct debug_log_level;
      [by apply list_elem_of_singleton in Hin | by apply elem_of_nil in Hin].
  - rewrite elem_of_app, elem_of_cons. intros [?|[?|Hin]]; [done|done|].
    destruct debug_log_level;
      [by apply list_elem_of_singleton in Hin | by apply elem_of_nil in Hin].
  - intros Hnil.
    unfold _update_metrics_to_log, st_bind, st_get, st_lift, st_modify, st_ret, getitem.
    rewrite Hcfg, Hv. unfold _log_metric_info.
    destruct debug_log_level; rewrite !metrics_to_log_append, Hnil; reflexivity.
Qed.

(** With the cache filled, [batch_predict] leaves the model as it is and
    scores against the cached embeddings. *)
Lemma batch_predict_cached (self : Model) (batch_in : BatchIn) (embed : Tensor) :
  all_labels_embed self = Some embed →
  snd (batch_predict batch_in self) = self ∧
  fst (batch_predict batch_in self)
    = (sentence_vector ← text_sentence_vector self batch_in;
       score_against self sentence_vector embed).
Proof.
  intros Hcache. unfold batch_predict, st_bind, st_get, st_lift, st_modify, st_ret.
  destruct (text_sentence_vector self batch_in) as [sv|e]; cbn; [|done].
  rewrite Hcache. cbn. rewrite Hcache. done.
Qed.

(** With the cache empty, a call that returns has filled it with the
    embeddings [_create_all_labels] computes, and has assigned nothing
    else. *)
Lemma batch_predict_fills_cache (self : Model) (batch_in : BatchIn) (out : gmap string Tensor) :
  all_labels_embed self = None →
  fst (batch_predict batch_in self) = Return out →
  ∃ ids embed,
    _create_all_labels self = Return (ids, embed) ∧
    snd (batch_predict batch_in self) = set_all_labels_embed embed self.
Proof.
  intros Hcache. unfold batch_predict, st_bind, st_get, st_lift, st_modify, st_ret.
  destruct (text_sentence_vector self batch_in) as [sv|e]; cbn; [|done].
  rewrite Hcache.
  destruct (_create_all_labels self) as [[ids embed]|e]; cbn; [|done].
  intros _. by exists ids, embed.
Qed.

Lemma after_calls_cached (batches : list BatchIn) (self : Model) (embed : Tensor) :
  all_labels_embed self = Some embed →
  after_calls batches self = self.
Proof.
  intros Hcache. unfold after_calls.
  induction batches as [|batch_in rest IH]; [reflexivity|].
  cbn [fold_left]. rewrite (proj1 (batch_predict_cached self batch_in embed Hcache)).
  exact IH.
Qed.

(** C7. On a model whose cache is empty, the first [batch_predict] call
    that returns fills [all_labels_embed] with the embeddings of the whole
    label space; after any number of further calls the model is still that
    one (the cache holds the same value and no other field has changed), and
    each further call scores against the cached value, without computing
    the label embeddings again. *)
Theorem all_labels_embed_built_once
    (self : Model) (first : BatchIn) (out : gmap string Tensor) :
  all_labels_embed self = None →
  fst (batch_predict first self) = Return out →
  ∃ ids embed,
    _create_all_labels self = Return (ids, embed) ∧
    all_labels_embed (snd (batch_predict first self)) = Some embed ∧
    ∀ (later : list BatchIn) (batch_in : BatchIn),
      let served := after_calls later (snd (batch_predict first self)) in
      served = set_all_labels_embed embed self ∧
      all_labels_embed (snd (batch_predict batch_in served)) = Some embed ∧
      fst (batch_predict batch_in served)
        = (sentence_vector ← text_sentence_vector served batch_in;
           score_against served sentence_vector embed).
Proof.
  intros Hcache Hout.
  destruct (batch_predict_fills_cache self first out Hcache Hout) as (ids & embed & Hcreate & ->).
  exists ids, embed. split; [exact Hcreate|]. split; [reflexivity|].
  intros later batch_in served.
  assert (Hserved : served = set_all_labels_embed embed self).
  { by apply after_calls_cached with embed. }
  split; [exact Hserved|]. rewrite Hserved.
  destruct (batch_predict_cached (set_all_labels_embed embed self) batch_in embed eq_refl)
    as [-> ->].
  done.
Qed.

End DIET2DIETProperties.

(** ** The properties on concrete inputs *)

Lemma process_unresolved_label_raises_witness :
  component_config (example_selector partial_registry) !! TRAIN_ON_TEXT = Some (PBool false) ∧
  process (example_selector partial_registry) hello = Raise TypeError.
Proof.
  split; [reflexivity|].
  apply (process_unresolved_label_raises (example_selector partial_registry) hello (PBool false)).
  - reflexivity.
  - intros key responses Hin. apply list_elem_of_singleton in Hin.
    injection Hin as -> _. vm_compute. discriminate.
Defined.

Lemma process_without_label_id_raises_witness :
  model untrained_selector = None ∧
  id (fst (_predict_label untrained_selector (_predict untrained_selector hello))) = None ∧
  process untrained_selector hello = Raise TypeError.
Proof.
  split; [reflexivity|]. split; [reflexivity|].
  destruct (process_without_label_id_raises untrained_selector hello) as [_ Hraise].
  - reflexivity.
  - apply (Hraise (PBool false)); reflexivity.
Defined.

(** C3, as stated, fails: with the train-on-text flag false the ranking
    carries each candidate's own name, not the mapping's entry for it (here
    [chitchat] for the first candidate and nothing for the second). *)
Lemma ranking_not_looked_up_without_train_on_text :
  component_config (example_selector full_registry) !! TRAIN_ON_TEXT = Some (PBool false) ∧
  process (example_selector full_registry) hello = Return answered_hello ∧
  default ∅ (response_selector answered_hello)
    !! selector_key (example_selector full_registry) = Some answered_prediction ∧
  full_retrieval_intent <$> prediction_ranking answered_prediction
    = [Some "chitchat/ask_name"%string; Some "chitchat/ask_weather"%string] ∧
  spec_full_retrieval_intent false
      (retrieval_intent_mapping (example_selector full_registry))
    <$> (ranking_label <$> prediction_ranking answered_prediction)
    = [Some "chitchat"%string; None].
Proof. repeat split; vm_compute; reflexivity. Qed.

Lemma ranking_full_retrieval_intent_witness :
  process (example_selector full_registry) hello = Return answered_hello ∧
  ∃ prediction,
    default ∅ (response_selector answered_hello)
      !! selector_key (example_selector full_registry) = Some prediction ∧
    Forall2
      (fun entry candidate =>
         ranking_label entry = candidate ∧
         ∃ train_on_text,
           component_config (example_selector full_registry) !! TRAIN_ON_TEXT
             = Some train_on_text ∧
           full_retrieval_intent entry =
             if truthy train_on_text
             then mjoin (retrieval_intent_mapping (example_selector full_registry)
                           !! name candidate)
             else name candidate)
      (prediction_ranking prediction)
      (snd (_predict_label (example_selector full_registry)
              (_predict (example_selector full_registry) hello))).
Proof.
  split; [vm_compute; reflexivity|].
  apply (ranking_full_retrieval_intent (example_selector full_registry) hello answered_hello).
  vm_compute. reflexivity.
Defined.

(** C4. With shared hidden layers, text and label signatures that agree
    on the sentence features and differ on the sequence features pass
    [_check_data]: no error is raised. *)
Theorem check_data_accepts_mismatched_sequence_features :
  truthy <$> config (example_model mismatched_sequence_signature) !! SHARE_HIDDEN_LAYERS
    = Some true ∧
  mismatched_sequence_signature !! TEXT_SEQUENCE_FEATURES
    ≠ mismatched_sequence_signature !! LABEL_SEQUENCE_FEATURES ∧
  _check_data (example_model mismatched_sequence_signature) = Return tt.
Proof. repeat split. vm_compute. discriminate. Qed.

Lemma check_data_missing_features_witness :
  label_only_signature !! TEXT_SEQUENCE_FEATURES = None ∧
  label_only_signature !! TEXT_SENTENCE_FEATURES = None ∧
  _check_data (example_model label_only_signature) = Raise InvalidConfigError.
Proof.
  split; [reflexivity|]. split; [reflexivity|].
  apply (check_data_missing_features (example_model label_only_signature)).
  left. split; reflexivity.
Defined.

Lemma all_labels_embed_built_once_witness :
  ∃ ids embed,
    _create_all_labels (example_model mismatched_sequence_signature) = Return (ids, embed) ∧
    all_labels_embed (snd (batch_predict 2 (example_model mismatched_sequence_signature)))
      = Some embed ∧
    ∀ (later : list Z) (batch_in : Z),
      let served :=
        after_calls later (snd (batch_predict 2 (example_model mismatched_sequence_signature))) in
      served = set_all_labels_embed embed (example_model mismatched_sequence_signature) ∧
      all_labels_embed (snd (batch_predict batch_in served)) = Some embed ∧
      fst (batch_predict batch_in served)
        = (sentence_vector ← text_sentence_vector served batch_in;
           score_against served sentence_vector embed).
Proof.
  apply (all_labels_embed_built_once (example_model mismatched_sequence_signature) 2
           (<["i_scores"%string := 280]> ∅)).
  - reflexivity.
  - vm_compute. reflexivity.
Defined.



Lemma update_metrics_without_masked_lm_witness :
  config (example_model mismatched_sequence_signature) !! MASKED_LM = Some (PBool false) ∧
  metrics_to_log
    (snd (_update_metrics_to_log true (example_model mismatched_sequence_signature)))
    = ["r_acc"%string; "r_loss"%string] ∧
  fst (_update_metrics_to_log true (example_model mismatched_sequence_signature)) = Return tt.
Proof.
  split; [reflexivity|].
  destruct (update_metrics_without_masked_lm
              (example_model mismatched_sequence_signature) true (PBool false))
    as (Hlist & _ & _ & Hret).
  - reflexivity.
  - reflexivity.
  - apply not_elem_of_nil.
  - apply not_elem_of_nil.
  - split; [exact Hlist | apply Hret; reflexivity].
Defined.

Lemma preprocess_empty_labels_overwrites_witness :
  retrieval_intent_mapping stale_faq_selector ≠ ∅ ∧
  responses stale_faq_selector = [] ∧
  fst (preprocess_train_data example_training_data stale_faq_selector) = Return [] ∧
  retrieval_intent_mapping (snd (preprocess_train_data example_training_data stale_faq_selector))
    = ∅ ∧
  responses (snd (preprocess_train_data example_training_data stale_faq_selector))
    = full_registry.
Proof.
  split.
  { intros Heq. apply (f_equal (fun m : Mapping => m !! Some "faq/ask_price"%string)) in Heq.
    vm_compute in Heq. discriminate. }
  split; [reflexivity|].
  destruct (preprocess_empty_labels_overwrites stale_faq_selector example_training_data
              (PBool false)) as (Hret & Hmapping & Hresponses & _).
  - reflexivity.
  - vm_compute. reflexivity.
  - split; [exact Hret|]. split; [rewrite Hmapping | rewrite Hresponses]; reflexivity.
Defined.

(** ** Further properties of the [ResponseSelector] component *)

Section ResponseSelectorFurther.

Context {RasaModel RasaModelData PredictOut TrainingData FS : Type}.
Context `{!DIETClassifier RasaModel RasaModelData PredictOut TrainingData}.
Context `{!Persistence RasaModel RasaModelData FS}.

Local Abbreviation Selector := (ResponseSelector RasaModel RasaModelData).

(** X1. The retrieval-intent mapping sends a response to the
    intent-response key of the LAST intent example that carries this
    response, and has no entry for a response no intent example carries. *)
Theorem retrieval_intent_mapping_last_write_wins
    (training_data : TrainingData) (response : option string) :
  _create_retrieval_intent_mapping training_data !! response
  = (fun example => message_get example INTENT_RESPONSE_KEY)
      <$> last (filter (fun example => message_get example RESPONSE = response)
                  (intent_examples training_data)).
Proof.
  unfold _create_retrieval_intent_mapping.
  induction (intent_examples training_data) as [|example examples IH] using rev_ind.
  - reflexivity.
  - rewrite fold_left_app, filter_app, filter_cons, filter_nil. cbn [fold_left].
    destruct (decide (message_get example RESPONSE = response)) as [Heq|Hne].
    + rewrite last_snoc, <- Heq. cbn. apply lookup_insert_eq.
    + rewrite app_nil_r, lookup_insert_ne by exact Hne. exact IH.
Qed.

Lemma for_each_annotate_returns (self : Selector) (v : Any) (ranking : list Label) :
  component_config self !! TRAIN_ON_TEXT = Some v →
  for_each (annotate_ranking self) ranking
  = Return
      ((fun candidate =>
          {| ranking_label := candidate;
             full_retrieval_intent :=
               if truthy v
               then mjoin (retrieval_intent_mapping self !! name candidate)
               else name candidate |}) <$> ranking).
Proof.
  intros Hcfg. induction ranking as [|candidate rest IH]; [reflexivity|].
  cbn [for_each]. rewrite IH. unfold annotate_ranking, getitem. rewrite Hcfg. reflexivity.
Qed.

(** A registry walk that finds an entry has read the train-on-text flag. *)
Lemma full_response_found_reads_flag (self : Selector) (label : Label)
    (found : string * Response) :
  _full_response self label = Return (Some found) →
  ∃ v, component_config self !! TRAIN_ON_TEXT = Some v.
Proof.
  unfold _full_response. destruct (responses self) as [|[key rs] rest]; [discriminate|].
  cbn [full_response_items]. unfold getitem.
  destruct (component_config self !! TRAIN_ON_TEXT) as [v|]; [by exists v | discriminate].
Qed.

(** X2. Whenever the registry resolves the predicted label, [process]
    returns: the message gets, under the selector key, the resolved payload
    as ["response"], the registry key as ["full_retrieval_intent"], and one
    ranking entry per candidate, in the classifier's order. *)
Theorem process_resolved_returns
    (self : Selector) (message : Message) (key : string) (payload : Response) :
  _full_response self (fst (_predict_label self (_predict self message)))
    = Return (Some (key, payload)) →
  ∃ ranking,
    process self message
      = Return (_set_message_property message
                  {| prediction_response := payload;
                     prediction_ranking := ranking;
                     prediction_full_retrieval_intent := key |}
                  (selector_key self)) ∧
    ranking_label <$> ranking = snd (_predict_label self (_predict self message)).
Proof.
  intros Hfound.
  destruct (full_response_found_reads_flag _ _ _ Hfound) as [v Hcfg].
  unfold process. destruct (_predict_label self (_predict self message)) as [label rk].
  cbn [fst snd] in *. rewrite Hfound. cbn.
  rewrite (for_each_annotate_returns self v rk Hcfg). cbn.
  eexists. split; [reflexivity|].
  rewrite <- list_fmap_compose. cbn. induction rk as [|c rest IH]; [reflexivity|].
  cbn. by rewrite IH.
Qed.

(** X3. A call of [process] that returns leaves the message's text and
    attributes alone, adds ["response_selector"] to the output properties
    and keeps every prediction filed under another selector key. *)
Theorem process_frame (self : Selector) (message message' : Message) :
  process self message = Return message' →
  text message' = text message ∧
  data message' = data message ∧
  output_properties message'
    = {[RESPONSE_SELECTOR_PROPERTY_NAME]} ∪ output_properties message ∧
  ∀ key, key ≠ selector_key self →
    default ∅ (response_selector message') !! key
    = default ∅ (response_selector message) !! key.
Proof.
  intros Hret. apply process_returns_inv in Hret as (k & payload & ranking & _ & _ & ->).
  unfold _set_message_property, message_set_selector. cbn.
  repeat split. intros key Hne. by rewrite lookup_insert_ne.
Qed.

(** X4. Two selectors with different selector keys run on the same message
    one after the other: the message ends up with both predictions, the
    first one untouched by the second call. *)
Theorem process_twice_keeps_both
    (first second : Selector) (message message' message'' : Message) :
  process first message = Return message' →
  process second message' = Return message'' →
  selector_key first ≠ selector_key second →
  ∃ prediction,
    default ∅ (response_selector message') !! selector_key first = Some prediction ∧
    default ∅ (response_selector message'') !! selector_key first = Some prediction ∧
    is_Some (default ∅ (response_selector message'') !! selector_key second).
Proof.
  intros Hfirst Hsecond Hne.
  destruct (process_frame second message' message'' Hsecond) as (_ & _ & _ & Hkeep).
  apply process_returns_inv in Hfirst as (k1 & p1 & r1 & _ & _ & ->).
  apply process_returns_inv in Hsecond as (k2 & p2 & r2 & _ & _ & ->).
  eexists. split.
  - cbn. apply lookup_insert_eq.
  - split.
    + rewrite Hkeep by exact Hne. cbn. apply lookup_insert_eq.
    + cbn. rewrite lookup_insert_eq. by eexists.
Qed.

(** X5. When labels are retrieval-intent keys (train-on-text false), what
    [_full_response] returns is the first payload of the FIRST registry
    entry whose key hashes to the label's id; the other payloads of that
    entry and all later entries play no part. *)
Theorem full_response_first_matching_key
    (self : Selector) (label : Label) (key : string) (response : Response) (v : Any) :
  component_config self !! TRAIN_ON_TEXT = Some v →
  truthy v = false →
  _full_response self label = Return (Some (key, response)) →
  ∃ before rest after,
    responses self = before ++ (key, response :: rest) :: after ∧
    Some (hash (PStr key)) = id label ∧
    Forall (fun entry => Some (hash (PStr (fst entry))) ≠ id label) before.
Proof.
  intros Hcfg Hv. unfold _full_response.
  induction (responses self) as [|[k rs] items IH]; [discriminate|].
  cbn [full_response_items]. unfold getitem at 1. rewrite Hcfg. cbn. rewrite Hv. cbn.
  destruct (decide (Some (hash (PStr k)) = id label)) as [Heq|Hne].
  - rewrite bool_decide_eq_true_2 by exact Heq.
    destruct rs as [|r rest]; cbn; [discriminate|].
    intros [= -> ->]. exists [], rest, items. by repeat split.
  - rewrite bool_decide_eq_false_2 by exact Hne. intros Hfound.
    destruct (IH Hfound) as (before & rest & after & -> & Hid & Hbefore).
    exists ((k, rs) :: before), rest, after. repeat split; [exact Hid|].
    by constructor.
Qed.

(** X6. In the same mode, a first matching entry that lists no response
    makes [_full_response], and with it [process], raise [IndexError]. *)
Theorem full_response_empty_entry_raises
    (self : Selector) (message : Message) (v : Any) (key : string)
    (before after : Registry) :
  component_config self !! TRAIN_ON_TEXT = Some v →
  truthy v = false →
  responses self = before ++ (key, []) :: after →
  Forall (fun entry =>
            Some (hash (PStr (fst entry)))
              ≠ id (fst (_predict_label self (_predict self message)))) before →
  Some (hash (PStr key)) = id (fst (_predict_label self (_predict self message))) →
  _full_response self (fst (_predict_label self (_predict self message))) = Raise IndexError ∧
  process self message = Raise IndexError.
Proof.
  intros Hcfg Hv Hregistry Hbefore Hid.
  assert (Hfull : _full_response self (fst (_predict_label self (_predict self message)))
                  = Raise IndexError).
  { unfold _full_response. rewrite Hregistry. clear Hregistry.
    induction Hbefore as [|[k rs] items Hne _ IH]; cbn [app full_response_items];
      unfold getitem at 1; rewrite Hcfg; cbn; rewrite Hv; cbn.
    - by rewrite bool_decide_eq_true_2.
    - rewrite bool_decide_eq_false_2 by exact Hne. exact IH. }
  split; [exact Hfull|].
  unfold process. destruct (_predict_label self (_predict self message)) as [label rk].
  cbn [fst] in Hfull. by rewrite Hfull.
Qed.

Lemma first_response_with_id_sound (responses : list Response) (label : Label)
    (response : Response) :
  first_response_with_id responses label = Return (Some response) →
  response ∈ responses ∧
  ∃ h, py_hash (default (PStr "") (response !! TEXT)) = Return h ∧ Some h = id label.
Proof.
  induction responses as [|r rest IH]; [discriminate|].
  cbn [first_response_with_id].
  destruct (py_hash (default (PStr "") (r !! TEXT))) as [h|e] eqn:Eh; cbn; [|discriminate].
  destruct (decide (Some h = id label)) as [Heq|Hne].
  - rewrite bool_decide_eq_true_2 by exact Heq. intros [= <-].
    split; [apply list_elem_of_here | by exists h].
  - rewrite bool_decide_eq_false_2 by exact Hne. intros Hfound.
    destruct (IH Hfound) as [Hin Hhash]. split; [by apply list_elem_of_further | exact Hhash].
Qed.

(** X7. When labels are response texts (train-on-text true), what
    [_full_response] returns is a payload listed under the returned key
    whose text (the empty string when it has none) hashes to the label's
    id. *)
Theorem full_response_text_mode_sound
    (self : Selector) (label : Label) (key : string) (response : Response) (v : Any) :
  component_config self !! TRAIN_ON_TEXT = Some v →
  truthy v = true →
  _full_response self label = Return (Some (key, response)) →
  ∃ listed,
    (key, listed) ∈ responses self ∧
    response ∈ listed ∧
    ∃ h, py_hash (default (PStr "") (response !! TEXT)) = Return h ∧ Some h = id label.
Proof.
  intros Hcfg Hv. unfold _full_response.
  induction (responses self) as [|[k rs] items IH]; [discriminate|].
  cbn [full_response_items]. unfold getitem at 1. rewrite Hcfg. cbn. rewrite Hv.
  destruct (first_response_with_id rs label) as [[r|]|e] eqn:Efirst; cbn; [| |discriminate].
  - intros [= -> ->]. apply first_response_with_id_sound in Efirst as [Hin Hhash].
    exists rs. split; [apply list_elem_of_here | by split].
  - intros Hfound. destruct (IH Hfound) as (listed & Hin & Hrest).
    exists listed. split; [by apply list_elem_of_further | exact Hrest].
Qed.

(** X8. A configuration without the train-on-text entry makes
    [preprocess_train_data] raise [KeyError] before it assigns anything:
    the component is left as it was. *)
Theorem preprocess_missing_flag_raises (self : Selector) (training_data : TrainingData) :
  component_config self !! TRAIN_ON_TEXT = None →
  preprocess_train_data training_data self = (Raise KeyError, self).
Proof.
  intros Hcfg. unfold preprocess_train_data, st_bind, st_get, st_lift, getitem.
  by rewrite Hcfg.
Qed.

(** X9. With labels in the training data, [preprocess_train_data] hands
    the data to the inherited steps in turn; when all of them succeed it
    returns the model data, and the component then holds the new mapping,
    the data's responses, the inverted label index and the label data. *)
Theorem preprocess_with_labels_returns
    (self : Selector) (training_data : TrainingData) (train_on_text : Any)
    (label_data model_data : RasaModelData) :
  let filtered := filter_by_retrieval_intent self training_data in
  let label_attribute := if truthy train_on_text then RESPONSE else INTENT_RESPONSE_KEY in
  let labels := _label_id_index_mapping filtered label_attribute in
  let indexed :=
    set_index_label_id_mapping (_invert_mapping labels)
      (set_responses (training_data_responses filtered)
         (set_retrieval_intent_mapping (_create_retrieval_intent_mapping filtered) self)) in
  component_config self !! TRAIN_ON_TEXT = Some train_on_text →
  labels ≠ ∅ →
  _create_label_data indexed filtered labels label_attribute = Return label_data →
  _create_model_data (set_label_data label_data indexed) (intent_examples filtered)
    labels label_attribute = Return model_data →
  _check_input_dimension_consistency (set_label_data label_data indexed) model_data
    = Return tt →
  preprocess_train_data training_data self
  = (Return model_data, set_label_data label_data indexed).
Proof.
  intros filtered label_attribute labels indexed Hcfg Hlabels Hlabel_data Hmodel_data Hcheck.
  unfold preprocess_train_data, st_bind, st_get, st_lift, st_modify, st_ret, getitem.
  rewrite Hcfg. fold filtered label_attribute labels.
  destruct (decide (labels = ∅)) as [Hempty|_]; [done|].
  fold indexed. rewrite Hlabel_data, Hmodel_data, Hcheck. reflexivity.
Qed.

(** X10. When the final consistency check raises, the error reaches the
    caller, and the component keeps every assignment made before it: new
    mapping, registry, label index and label data. *)
Theorem preprocess_failed_check_keeps_assignments
    (self : Selector) (training_data : TrainingData) (train_on_text : Any)
    (label_data model_data : RasaModelData) (e : exn) :
  let filtered := filter_by_retrieval_intent self training_data in
  let label_attribute := if truthy train_on_text then RESPONSE else INTENT_RESPONSE_KEY in
  let labels := _label_id_index_mapping filtered label_attribute in
  let indexed :=
    set_index_label_id_mapping (_invert_mapping labels)
      (set_responses (training_data_responses filtered)
         (set_retrieval_intent_mapping (_create_retrieval_intent_mapping filtered) self)) in
  component_config self !! TRAIN_ON_TEXT = Some train_on_text →
  labels ≠ ∅ →
  _create_label_data indexed filtered labels label_attribute = Return label_data →
  _create_model_data (set_label_data label_data indexed) (intent_examples filtered)
    labels label_attribute = Return model_data →
  _check_input_dimension_consistency (set_label_data label_data indexed) model_data
    = Raise e →
  preprocess_train_data training_data self
  = (Raise e, set_label_data label_data indexed).
Proof.
  intros filtered label_attribute labels indexed Hcfg Hlabels Hlabel_data Hmodel_data Hcheck.
  unfold preprocess_train_data, st_bind, st_get, st_lift, st_modify, st_ret, getitem.
  rewrite Hcfg. fold filtered label_attribute labels.
  destruct (decide (labels = ∅)) as [Hempty|_]; [done|].
  fold indexed. rewrite Hlabel_data, Hmodel_data, Hcheck. reflexivity.
Qed.

End ResponseSelectorFurther.

(** ** Further properties of the [DIET2DIET] model *)

Section DIET2DIETFurther.

Context {Tensor Layer BatchIn : Type}.
Context `{!DIET Tensor Layer BatchIn}.
Context `{!DIETTraining Tensor Layer}.

Local Abbreviation Model := (DIET2DIET Tensor Layer).

(** X11. [_check_data] accepts a model exactly when the data signature has
    sentence features for text and for label, the configuration has the
    share-hidden-layers entry, and, if that entry is true, the two
    sentence-feature signatures are equal. *)
Theorem check_data_accepts_iff (self : Model) :
  _check_data self = Return tt ↔
  ∃ text_signature label_signature share_hidden_layers,
    data_signature self !! TEXT_SENTENCE_FEATURES = Some text_signature ∧
    data_signature self !! LABEL_SENTENCE_FEATURES = Some label_signature ∧
    config self !! SHARE_HIDDEN_LAYERS = Some share_hidden_layers ∧
    (truthy share_hidden_layers = true → text_signature = label_signature).
Proof.
  unfold _check_data, getitem.
  destruct (data_signature self !! TEXT_SENTENCE_FEATURES) as [t|] eqn:Et.
  2: { destruct (decide (None = None)); [|done].
       split; [discriminate | by intros (? & ? & ? & ? & _)]. }
  destruct (decide (Some t = None)); [done|].
  destruct (data_signature self !! LABEL_SENTENCE_FEATURES) as [l|] eqn:El.
  2: { destruct (decide (None = None)); [|done].
       split; [discriminate | by intros (? & ? & ? & _ & ? & _)]. }
  destruct (decide (Some l = None)); [done|].
  destruct (config self !! SHARE_HIDDEN_LAYERS) as [v|] eqn:Ev; cbn.
  2: { split; [discriminate | by intros (? & ? & ? & _ & _ & ? & _)]. }
  destruct (truthy v) eqn:Etruthy; cbn.
  - destruct (decide (t = l)) as [->|Hne].
    + rewrite bool_decide_eq_false_2 by (intros Hx; by apply Hx).
      split; [intros _; by exists l, l, v | done].
    + rewrite bool_decide_eq_true_2 by exact Hne.
      split; [discriminate|]. intros (t' & l' & v' & [= <-] & [= <-] & [= <-] & Himp).
      by specialize (Himp Etruthy).
  - split; [intros _|done]. exists t, l, v. repeat split. by rewrite Etruthy.
Qed.

(** X12. With the masked-token head enabled, [_update_metrics_to_log] adds
    the mask accuracy before the response accuracy, each followed by its
    loss at debug level, and from the empty list of a new model the call
    returns. *)
Theorem update_metrics_with_masked_lm (self : Model) (debug_log_level : bool) (v : Any) :
  config self !! MASKED_LM = Some v →
  truthy v = true →
  metrics_to_log (snd (_update_metrics_to_log debug_log_level self))
    = metrics_to_log self ++
      (if debug_log_level
       then ["m_acc"; "m_loss"; "r_acc"; "r_loss"]
       else ["m_acc"; "r_acc"])%string ∧
  (metrics_to_log self = [] →
   fst (_update_metrics_to_log debug_log_level self) = Return tt).
Proof.
  intros Hcfg Hv. split.
  - unfold _update_metrics_to_log, st_bind, st_get, st_lift, st_modify, st_ret, getitem.
    rewrite Hcfg, Hv.
    destruct debug_log_level;
      match goal with
      | |- context [_log_metric_info ?m] => destruct (_log_metric_info m)
      end; cbn; by rewrite <- ?app_assoc.
  - intros Hnil.
    unfold _update_metrics_to_log, st_bind, st_get, st_lift, st_modify, st_ret, getitem.
    rewrite Hcfg, Hv. unfold _log_metric_info.
    destruct debug_log_level; rewrite !metrics_to_log_append, Hnil; reflexivity.
Qed.

(** X13. A configuration without the masked-token entry makes
    [_update_metrics_to_log] raise [KeyError] before it appends anything. *)
Theorem update_metrics_missing_flag_raises (self : Model) (debug_log_level : bool) :
  config self !! MASKED_LM = None →
  _update_metrics_to_log debug_log_level self = (Raise KeyError, self).
Proof.
  intros Hcfg. unfold _update_metrics_to_log, st_bind, st_get, st_lift, getitem.
  by rewrite Hcfg.
Qed.

Lemma split_underscore_nonempty (s : string) : split_underscore s ≠ [].
Proof.
  destruct s as [|c rest]; cbn; [done|].
  destruct (Ascii.eqb c "_"); [done|]. by destruct (split_underscore rest).
Qed.

(** X14. Joining the parts of [s.split("_")] with underscores gives [s]
    back, and no part contains an underscore. *)
Theorem split_underscore_join (s : string) :
  join_underscore (split_underscore s) = s ∧
  ∀ part, part ∈ split_underscore s → "_"%char ∉ list_ascii_of_string part.
Proof.
  induction s as [|c rest [IHjoin IHparts]].
  - split; [reflexivity|]. intros part Hin. apply list_elem_of_singleton in Hin as ->.
    apply not_elem_of_nil.
  - cbn [split_underscore]. destruct (Ascii.eqb_spec c "_"%char) as [->|Hc].
    + split.
      * pose proof (split_underscore_nonempty rest) as Hne.
        destruct (split_underscore rest) as [|p ps] eqn:Esplit; [done|].
        by rewrite <- IHjoin.
      * intros part Hin. apply elem_of_cons in Hin as [->|Hin]; [apply not_elem_of_nil|].
        by apply IHparts.
    + pose proof (split_underscore_nonempty rest) as Hne.
      destruct (split_underscore rest) as [|p ps] eqn:Esplit; [done|]. split.
      * rewrite <- IHjoin. by destruct ps.
      * intros part Hin. apply elem_of_cons in Hin as [->|Hin].
        -- cbn. rewrite not_elem_of_cons. split; [done|].
           apply IHparts. apply list_elem_of_here.
        -- apply IHparts. by apply list_elem_of_further.
Qed.

Lemma for_each_returns_iff {A B} (body : A → result B) (l : list A) :
  (∃ l', for_each body l = Return l' ∧ length l' = length l) ↔
  Forall (fun x => ∃ y, body x = Return y) l.
Proof.
  induction l as [|x rest IH]; cbn.
  - split; [constructor | by exists []].
  - split.
    + intros (l' & Hret & _).
      destruct (body x) as [y|e] eqn:Ey; cbn in Hret; [|discriminate].
      destruct (for_each body rest) as [ys|e] eqn:Eys; cbn in Hret; [|discriminate].
      constructor; [by exists y|]. apply IH. exists ys. split; [reflexivity|].
      clear -Eys. revert ys Eys. induction rest as [|z zs IHz]; cbn; intros ys.
      * by intros [= <-].
      * destruct (body z); cbn; [|discriminate].
        destruct (for_each body zs) as [ws|]; cbn; [|discriminate].
        intros [= <-]. cbn. f_equal. by apply IHz.
    + intros Hall. apply Forall_cons in Hall as [[y Hy] Hrest].
      apply IH in Hrest as (ys & Hys & Hlen). rewrite Hy, Hys. cbn.
      exists (y :: ys). split; [reflexivity | cbn; by rewrite Hlen].
Qed.

Lemma metric_name_lookup (part_0 : string) :
  is_Some ((<["r" := "response"]> (<["m" := "mask"]> (<["t" := "total"]> ∅))
            : gmap string string) !! part_0)%string
  ↔ part_0 = "t"%string ∨ part_0 = "m"%string ∨ part_0 = "r"%string.
Proof.
  destruct (decide (part_0 = "r"%string)) as [->|Hr].
  { rewrite lookup_insert_eq. split; [auto | by eexists]. }
  rewrite lookup_insert_ne by done.
  destruct (decide (part_0 = "m"%string)) as [->|Hm].
  { rewrite lookup_insert_eq. split; [auto | by eexists]. }
  rewrite lookup_insert_ne by done.
  destruct (decide (part_0 = "t"%string)) as [->|Ht].
  { rewrite lookup_insert_eq. split; [auto | by eexists]. }
  rewrite lookup_insert_ne by done. rewrite lookup_empty.
  split; [by intros [? ?] | by intros [?|[?|?]]].
Qed.

(** X15. [_log_metric_info] returns exactly when every metric to log has a
    first part among ["t"], ["m"], ["r"] and a second part; it then writes
    the heading and one line per metric. *)
Theorem log_metric_info_returns_iff (self : Model) :
  (∃ lines, _log_metric_info self = Return lines ∧
            length lines = S (length (metrics_to_log self))) ↔
  Forall (fun metric => loggable metric = true) (metrics_to_log self).
Proof.
  unfold _log_metric_info.
  match goal with
  | |- context [for_each ?body _] => pose proof (for_each_returns_iff body (metrics_to_log self)) as Hiff
  end.
  split.
  - intros (lines & Hret & Hlen).
    match type of Hret with
    | context [for_each ?body ?l] => destruct (for_each body l) as [ls|e] eqn:Els
    end; cbn in Hret; [|discriminate].
    injection Hret as <-. cbn in Hlen.
    assert (Hall : Forall (fun x => ∃ y, (fun metric =>
              let parts := split_underscore metric in
              part_0 ← first_item parts;
              long_name ← getitem (<["r" := "response"]> (<["m" := "mask"]> (<["t" := "total"]> ∅)))%string part_0;
              part_1 ← second_item parts;
              Return ("  " ++ metric ++ " (" ++ long_name ++ " " ++ part_1 ++ ")")%string) x
              = Return y) (metrics_to_log self)).
    { apply Hiff. exists ls. split; [reflexivity | lia]. }
    eapply Forall_impl; [exact Hall|]. cbn. intros metric [y Hy]. unfold loggable.
    destruct (split_underscore metric) as [|p [|q qs]]; cbn in Hy; try discriminate.
    + unfold getitem in Hy. destruct (_ !! p); discriminate.
    + apply bool_decide_eq_true_2. apply metric_name_lookup.
      unfold getitem in Hy. destruct (_ !! p); [by eexists | discriminate].
  - intros Hall.
    assert (Hbody : Forall (fun x => ∃ y, (fun metric =>
              let parts := split_underscore metric in
              part_0 ← first_item parts;
              long_name ← getitem (<["r" := "response"]> (<["m" := "mask"]> (<["t" := "total"]> ∅)))%string part_0;
              part_1 ← second_item parts;
              Return ("  " ++ metric ++ " (" ++ long_name ++ " " ++ part_1 ++ ")")%string) x
              = Return y) (metrics_to_log self)).
    { eapply Forall_impl; [exact Hall|]. cbn. intros metric Hlog. unfold loggable in Hlog.
      destruct (split_underscore metric) as [|p [|q qs]]; try discriminate.
      apply bool_decide_eq_true_1, metric_name_lookup in Hlog as [name Hname].
      cbn. unfold getitem. rewrite Hname. cbn. by eexists. }
    apply Hiff in Hbody as (ls & Hls & Hlen). rewrite Hls. cbn.
    eexists. split; [reflexivity | cbn; by rewrite Hlen].
Qed.

(** X16. Whatever happens in a [batch_predict] call, it writes no field
    of the model except the cache, and the cache only when it was empty and
    the label embeddings could be computed. *)
Theorem batch_predict_assigns_cache_only (self : Model) (batch_in : BatchIn) :
  snd (batch_predict batch_in self) = self ∨
  (all_labels_embed self = None ∧
   ∃ ids embed,
     _create_all_labels self = Return (ids, embed) ∧
     snd (batch_predict batch_in self) = set_all_labels_embed embed self).
Proof.
  unfold batch_predict, st_bind, st_get, st_lift, st_modify, st_ret.
  destruct (text_sentence_vector self batch_in) as [sv|e]; cbn; [|by left].
  destruct (all_labels_embed self) as [embed|] eqn:Ecache; cbn.
  - rewrite Ecache. left. by destruct (score_against self sv embed).
  - destruct (_create_all_labels self) as [[ids embed]|e]; cbn; [|by left].
    right. split; [reflexivity|]. exists ids, embed. split; [reflexivity|].
    by destruct (score_against (set_all_labels_embed embed self) sv embed).
Qed.

(** X17. A call that cannot read the text features of the batch, or, on
    an empty cache, cannot compute the label embeddings, raises that error
    and leaves the model as it was: the cache stays empty and the next call
    tries again. *)
Theorem batch_predict_failed_build (self : Model) (batch_in : BatchIn) (e : exn) :
  text_sentence_vector self batch_in = Raise e ∨
  (all_labels_embed self = None ∧
   (∃ sentence_vector, text_sentence_vector self batch_in = Return sentence_vector) ∧
   _create_all_labels self = Raise e) →
  batch_predict batch_in self = (Raise e, self).
Proof.
  unfold batch_predict, st_bind, st_get, st_lift, st_modify, st_ret.
  intros [Htext | (Hcache & [sv Htext] & Hcreate)]; rewrite Htext; cbn; [reflexivity|].
  by rewrite Hcache, Hcreate.
Qed.

(** X18. On an empty cache, once the label embeddings are computed they
    are stored, whether or not the scoring that follows succeeds: the
    result of the call is the result of the scoring, and the model holds
    the cache either way. *)
Theorem batch_predict_first_call
    (self : Model) (batch_in : BatchIn) (sentence_vector ids embed : Tensor) :
  all_labels_embed self = None →
  text_sentence_vector self batch_in = Return sentence_vector →
  _create_all_labels self = Return (ids, embed) →
  batch_predict batch_in self
  = (score_against (set_all_labels_embed embed self) sentence_vector embed,
     set_all_labels_embed embed self).
Proof.
  intros Hcache Htext Hcreate.
  unfold batch_predict, st_bind, st_get, st_lift, st_modify, st_ret.
  rewrite Htext. cbn. rewrite Hcache, Hcreate. cbn.
  by destruct (score_against (set_all_labels_embed embed self) sentence_vector embed).
Qed.


(** X20. A configuration without the sharing entry stops [_prepare_layers]
    with [KeyError] after the text tower has been named and before any layer
    is built. *)
Theorem prepare_layers_missing_share_raises (self : Model) :
  config self !! SHARE_HIDDEN_LAYERS = None →
  _prepare_layers self = (Raise KeyError, set_text_name TEXT self).
Proof.
  intros Hshare.
  unfold _prepare_layers, st_bind, st_get, st_lift, st_modify, st_ret, getitem.
  cbn. by rewrite Hshare.
Qed.

(** X21. Every metric name [_update_metrics_to_log] adds is the name of a
    metric [_create_metrics] has created. *)
Theorem logged_metrics_are_created (self : Model) (debug_log_level : bool) (metric : string) :
  metric ∈ metrics_to_log (snd (_update_metrics_to_log debug_log_level self)) →
  metric ∈ metrics_to_log self ∨ metric ∈ metric_names (_create_metrics (Tensor := Tensor)).
Proof.
  destruct (config self !! MASKED_LM) as [v|] eqn:Hcfg.
  - assert (Hlist : metrics_to_log (snd (_update_metrics_to_log debug_log_level self))
        = metrics_to_log self ++
          ((if truthy v
            then "m_acc"%string :: (if debug_log_level then ["m_loss"%string] else [])
            else [])
           ++ "r_acc"%string :: (if debug_log_level then ["r_loss"%string] else []))).
    { unfold _update_metrics_to_log, st_bind, st_get, st_lift, st_modify, st_ret, getitem.
      rewrite Hcfg.
      destruct (truthy v), debug_log_level;
        match goal with
        | |- context [_log_metric_info ?m] => destruct (_log_metric_info m)
        end; cbn; by rewrite <- ?app_assoc. }
    rewrite Hlist, elem_of_app. intros [Hold|Hnew]; [by left|right].
    unfold metric_names, _create_metrics. cbn.
    destruct (truthy v), debug_log_level; cbn in Hnew;
      rewrite ?elem_of_cons, ?elem_of_nil in Hnew;
      rewrite ?elem_of_cons; intuition.
  - rewrite update_metrics_missing_flag_raises by exact Hcfg. cbn. by left.
Qed.

(** Case analysis on the next thing a computation inspects. *)
Ltac inspect_next :=
  match goal with
  | |- context [match ?x with _ => _ end] =>
      lazymatch x with
      | context [match _ with _ => _ end] => fail
      | _ => destruct x eqn:?
      end
  end.

Ltac run_batch_loss Hcfg Hv :=
  unfold batch_loss, st_bind, st_lift, st_modify, st_ret, getitem;
  rewrite ?Hcfg, ?Hv; repeat (inspect_next; cbn; rewrite ?Hcfg, ?Hv).

(** X22. With the masked-token head disabled, a [batch_loss] call that
    returns has fed one value to the response loss and one to the response
    accuracy and nothing to the mask metrics, and what it returns is the sum
    over that single response loss. *)
Theorem batch_loss_without_masked_lm
    (self : Model) (batch_in : BatchIn) (metrics : Metrics Tensor) (v : Any) (total : Tensor) :
  config self !! MASKED_LM = Some v →
  truthy v = false →
  fst (batch_loss self batch_in metrics) = Return total →
  ∃ loss acc,
    total = add_n [loss] ∧
    snd (batch_loss self batch_in metrics)
      = update_response_acc acc (update_response_loss loss metrics) ∧
    mask_loss (snd (batch_loss self batch_in metrics)) = mask_loss metrics ∧
    mask_acc (snd (batch_loss self batch_in metrics)) = mask_acc metrics.
Proof.
  intros Hcfg Hv. run_batch_loss Hcfg Hv; try discriminate.
  intros [= <-]. by eexists _, _.
Qed.


(** X24. With the masked-token head enabled, a [batch_loss] call that
    returns has fed each of the four metrics once, and what it returns is
    the sum over the mask loss and the response loss, in this order. *)
Theorem batch_loss_with_masked_lm
    (self : Model) (batch_in : BatchIn) (metrics : Metrics Tensor) (v : Any) (total : Tensor) :
  config self !! MASKED_LM = Some v →
  truthy v = true →
  fst (batch_loss self batch_in metrics) = Return total →
  ∃ m_loss m_acc r_loss r_acc,
    total = add_n [m_loss; r_loss] ∧
    snd (batch_loss self batch_in metrics)
      = update_response_acc r_acc
          (update_response_loss r_loss
             (update_mask_acc m_acc (update_mask_loss m_loss metrics))).
Proof.
  intros Hcfg Hv. run_batch_loss Hcfg Hv; try discriminate.
  intros [= <-]. by eexists _, _, _, _.
Qed.


End DIET2DIETFurther.

(** ** The further properties on concrete inputs *)

Lemma process_resolved_returns_witness :
  ∃ ranking,
    process (example_selector full_registry) hello
      = Return (_set_message_property hello
                  {| prediction_response := ask_name_payload;
                     prediction_ranking := ranking;
                     prediction_full_retrieval_intent := "chitchat/ask_name" |}
                  (selector_key (example_selector full_registry))) ∧
    ranking_label <$> ranking
      = snd (_predict_label (example_selector full_registry)
               (_predict (example_selector full_registry) hello)).
Proof.
  apply (process_resolved_returns (example_selector full_registry) hello
           "chitchat/ask_name" ask_name_payload).
  vm_compute. reflexivity.
Defined.

Lemma process_frame_witness :
  text answered_hello = text hello ∧
  data answered_hello = data hello ∧
  output_properties answered_hello
    = {[RESPONSE_SELECTOR_PROPERTY_NAME]} ∪ output_properties hello ∧
  ∀ key, key ≠ selector_key (example_selector full_registry) →
    default ∅ (response_selector answered_hello) !! key
    = default ∅ (response_selector hello) !! key.
Proof.
  apply (process_frame (example_selector full_registry) hello answered_hello).
  vm_compute. reflexivity.
Defined.

Lemma process_twice_keeps_both_witness :
  ∃ prediction,
    default ∅ (response_selector answered_hello)
      !! selector_key (example_selector full_registry) = Some prediction ∧
    default ∅ (response_selector
                 (_set_message_property answered_hello chitchat_prediction "chitchat"))
      !! selector_key (example_selector full_registry) = Some prediction ∧
    is_Some (default ∅ (response_selector
                          (_set_message_property answered_hello chitchat_prediction "chitchat"))
               !! selector_key chitchat_selector).
Proof.
  apply (process_twice_keeps_both (example_selector full_registry) chitchat_selector hello
           answered_hello (_set_message_property answered_hello chitchat_prediction "chitchat")).
  - vm_compute. reflexivity.
  - vm_compute. reflexivity.
  - discriminate.
Defined.

Lemma full_response_first_matching_key_witness :
  ∃ before rest after,
    responses (example_selector full_registry)
      = before ++ ("chitchat/ask_name"%string, ask_name_payload :: rest) :: after ∧
    Some (hash (PStr "chitchat/ask_name")) = id ask_name_label ∧
    Forall (fun entry => Some (hash (PStr (fst entry))) ≠ id ask_name_label) before.
Proof.
  apply (full_response_first_matching_key (example_selector full_registry) ask_name_label
           "chitchat/ask_name" ask_name_payload (PBool false)).
  - reflexivity.
  - reflexivity.
  - vm_compute. reflexivity.
Defined.

Lemma full_response_empty_entry_raises_witness :
  _full_response (example_selector registry_with_empty_entry)
    (fst (_predict_label (example_selector registry_with_empty_entry)
            (_predict (example_selector registry_with_empty_entry) hello)))
    = Raise IndexError ∧
  process (example_selector registry_with_empty_entry) hello = Raise IndexError.
Proof.
  apply (full_response_empty_entry_raises (example_selector registry_with_empty_entry) hello
           (PBool false) "chitchat/ask_name"
           [("chitchat/ask_weather"%string, [(<["text" := PStr "It is sunny."]> ∅ : Response)])]
           []).
  - reflexivity.
  - reflexivity.
  - reflexivity.
  - constructor; [vm_compute; discriminate | constructor].
  - vm_compute. reflexivity.
Defined.

Lemma full_response_text_mode_sound_witness :
  ∃ listed,
    ("chitchat/ask_name"%string, listed) ∈ responses text_selector ∧
    ask_name_payload ∈ listed ∧
    ∃ h, py_hash (default (PStr "") (ask_name_payload !! TEXT)) = Return h ∧
         Some h = id text_label.
Proof.
  apply (full_response_text_mode_sound text_selector text_label
           "chitchat/ask_name" ask_name_payload (PBool true)).
  - reflexivity.
  - reflexivity.
  - vm_compute. reflexivity.
Defined.

Lemma preprocess_missing_flag_raises_witness :
  preprocess_train_data example_training_data unconfigured_selector
  = (Raise KeyError, unconfigured_selector).
Proof.
  apply (preprocess_missing_flag_raises unconfigured_selector example_training_data).
  reflexivity.
Defined.

Lemma preprocess_with_labels_returns_witness :
  fst (preprocess_train_data example_training_data (example_selector []))
    = Return (training_examples example_training_data) ∧
  responses (snd (preprocess_train_data example_training_data (example_selector [])))
    = full_registry ∧
  index_label_id_mapping
    (snd (preprocess_train_data example_training_data (example_selector []))) !! 0
    = Some "chitchat/ask_name"%string ∧
  retrieval_intent_mapping
    (snd (preprocess_train_data example_training_data (example_selector [])))
    !! Some "My name is Sara."%string
    = Some (Some "chitchat/ask_name"%string).
Proof.
  rewrite (preprocess_with_labels_returns (example_selector []) example_training_data
             (PBool false) (training_examples example_training_data)
             (training_examples example_training_data)).
  - repeat split; vm_compute; reflexivity.
  - reflexivity.
  - intros Hempty.
    apply (f_equal (fun m : gmap string Z => m !! "chitchat/ask_name"%string)) in Hempty.
    vm_compute in Hempty. discriminate.
  - reflexivity.
  - vm_compute. reflexivity.
  - reflexivity.
Defined.

Lemma preprocess_failed_check_keeps_assignments_witness :
  fst (@preprocess_train_data _ _ _ _ rejecting_classifier
         example_training_data (example_selector [])) = Raise ValueError ∧
  responses (snd (@preprocess_train_data _ _ _ _ rejecting_classifier
                    example_training_data (example_selector []))) = full_registry ∧
  _label_data (snd (@preprocess_train_data _ _ _ _ rejecting_classifier
                      example_training_data (example_selector [])))
    = Some (training_examples example_training_data).
Proof.
  rewrite (@preprocess_failed_check_keeps_assignments _ _ _ _ rejecting_classifier
             (example_selector []) example_training_data
             (PBool false) (training_examples example_training_data)
             (training_examples example_training_data) ValueError).
  - repeat split.
  - reflexivity.
  - intros Hempty.
    apply (f_equal (fun m : gmap string Z => m !! "chitchat/ask_name"%string)) in Hempty.
    vm_compute in Hempty. discriminate.
  - reflexivity.
  - vm_compute. reflexivity.
  - reflexivity.
Defined.

Lemma init_keeps_other_options_witness :
  component_config
    (__init__ (Some (<[TRAIN_ON_TEXT := PBool true]> (<[ENTITY_RECOGNITION := PBool true]> ∅)))
       None None None None : ExampleSelector) !! TRAIN_ON_TEXT
  = (<[TRAIN_ON_TEXT := PBool true]> (<[ENTITY_RECOGNITION := PBool true]> ∅) : Config)
      !! TRAIN_ON_TEXT.
Proof.
  apply (init_keeps_other_options
           (<[TRAIN_ON_TEXT := PBool true]> (<[ENTITY_RECOGNITION := PBool true]> ∅))
           None None None None TRAIN_ON_TEXT); discriminate.
Defined.

Lemma update_metrics_with_masked_lm_witness :
  metrics_to_log
    (snd (_update_metrics_to_log true
            (example_model_with (training_config true) example_label_data example_layers)))
    = ["m_acc"; "m_loss"; "r_acc"; "r_loss"]%string ∧
  fst (_update_metrics_to_log true
         (example_model_with (training_config true) example_label_data example_layers))
    = Return tt.
Proof.
  destruct (update_metrics_with_masked_lm
              (example_model_with (training_config true) example_label_data example_layers)
              true (PBool true)) as [Hlist Hret].
  - reflexivity.
  - reflexivity.
  - split; [exact Hlist | apply Hret; reflexivity].
Defined.

Lemma update_metrics_missing_flag_raises_witness :
  _update_metrics_to_log true (example_model_with ∅ example_label_data example_layers)
  = (Raise KeyError, example_model_with ∅ example_label_data example_layers).
Proof.
  apply (update_metrics_missing_flag_raises
           (example_model_with ∅ example_label_data example_layers) true).
  reflexivity.
Defined.

Lemma batch_predict_failed_build_witness :
  all_labels_embed (example_model_with (training_config false) ∅ example_layers) = None ∧
  _create_all_labels (example_model_with (training_config false) ∅ example_layers)
    = Raise KeyError ∧
  batch_predict 2 (example_model_with (training_config false) ∅ example_layers)
    = (Raise KeyError, example_model_with (training_config false) ∅ example_layers).
Proof.
  split; [reflexivity|]. split; [reflexivity|].
  apply (batch_predict_failed_build
           (example_model_with (training_config false) ∅ example_layers) 2 KeyError).
  right. split; [reflexivity|]. split; [|reflexivity].
  exists 4. vm_compute. reflexivity.
Defined.

Lemma batch_predict_first_call_witness :
  batch_predict 2
    (example_model_with (training_config false) example_label_data
       (<["embed.label"%string := 2]> (<["embed.text"%string := 5]> ∅)))
  = (Raise KeyError,
     set_all_labels_embed 14
       (example_model_with (training_config false) example_label_data
          (<["embed.label"%string := 2]> (<["embed.text"%string := 5]> ∅)))).
Proof.
  rewrite (batch_predict_first_call
             (example_model_with (training_config false) example_label_data
                (<["embed.label"%string := 2]> (<["embed.text"%string := 5]> ∅)))
             2 4 0 14).
  - reflexivity.
  - reflexivity.
  - vm_compute. reflexivity.
  - vm_compute. reflexivity.
Defined.


Lemma prepare_layers_missing_share_raises_witness :
  _prepare_layers (example_model_with ∅ example_label_data ∅)
  = (Raise KeyError, set_text_name TEXT (example_model_with ∅ example_label_data ∅)).
Proof.
  apply (prepare_layers_missing_share_raises (example_model_with ∅ example_label_data ∅)).
  reflexivity.
Defined.

Lemma logged_metrics_are_created_witness :
  "m_acc"%string
    ∈ metrics_to_log
        (example_model_with (training_config true) example_label_data example_layers) ∨
  "m_acc"%string ∈ metric_names (_create_metrics (Tensor := Z)).
Proof.
  apply (logged_metrics_are_created
           (example_model_with (training_config true) example_label_data example_layers)
           false "m_acc").
  vm_compute. apply list_elem_of_here.
Defined.

Lemma batch_loss_without_masked_lm_witness :
  ∃ loss acc,
    (-2) = add_n [loss] ∧
    snd (@batch_loss Z Z _ example_training_diet example_training
           (example_model_with (training_config false) example_label_data example_layers)
           (2, 3, 0) _create_metrics)
      = update_response_acc acc (update_response_loss loss _create_metrics) ∧
    mask_loss (snd (@batch_loss Z Z _ example_training_diet example_training
                      (example_model_with (training_config false) example_label_data
                         example_layers)
                      (2, 3, 0) _create_metrics))
      = mask_loss _create_metrics ∧
    mask_acc (snd (@batch_loss Z Z _ example_training_diet example_training
                     (example_model_with (training_config false) example_label_data
                        example_layers)
                     (2, 3, 0) _create_metrics))
      = mask_acc _create_metrics.
Proof.
  apply (@batch_loss_without_masked_lm Z Z _ example_training_diet example_training
           (example_model_with (training_config false) example_label_data example_layers)
           (2, 3, 0) _create_metrics (PBool false) (-2)).
  - reflexivity.
  - reflexivity.
  - vm_compute. reflexivity.
Defined.


Lemma batch_loss_with_masked_lm_witness :
  ∃ m_loss m_acc r_loss r_acc,
    2 = add_n [m_loss; r_loss] ∧
    snd (@batch_loss Z Z _ example_training_diet example_training
           (example_model_with (training_config true) example_label_data example_layers)
           (2, 3, 0) _create_metrics)
      = update_response_acc r_acc
          (update_response_loss r_loss
             (update_mask_acc m_acc (update_mask_loss m_loss _create_metrics))).
Proof.
  apply (@batch_loss_with_masked_lm Z Z _ example_training_diet example_training
           (example_model_with (training_config true) example_label_data example_layers)
           (2, 3, 0) _create_metrics (PBool true) 2).
  - reflexivity.
  - reflexivity.
  - vm_compute. reflexivity.
Defined.

